(** * VisionMate: the detection-state relay of [app.py]

    A shallow embedding of the Flask backend of the accessibility vest:
    the single process-wide [detection_state] record, the request
    handlers that write it ([update_detection], [manual_control]) and
    read it ([get_position], [get_status]), and the body of the
    background loop [auto_reset_worker] that forces the motors back to
    STOP when updates stop arriving.

    Conventions of the embedding.
    - A [datetime] is the number of microseconds on the local wall
      clock (the resolution of Python's [datetime]).  Every call of
      [datetime.now()] in the source is an explicit argument of the
      operation that makes it, in the order of the calls.
    - [timedelta.total_seconds()] of a difference [d] is [d / 10^6] as a
      correctly rounded double, so the source's test
      [time_diff > AUTO_RESET_SECONDS] holds exactly when [d] exceeds
      two million microseconds.
    - [str.upper] is Python's (Unicode aware) and not part of the
      repository: it is a parameter of the development.
    - The outcome of Flask's [request.get_json()] is the input of a
      handler: it either raises or returns the parsed JSON value.
    - [print] appends a line to the standard output, kept in the world
      next to the store, or raises [UnicodeEncodeError] when the stream
      cannot encode the text.  The lines of the program are ASCII text,
      which every encoding of a terminal takes, except for what the
      [UPDATE] line interpolates of the request: whether [sys.stdout]
      takes that text belongs to the process environment and is a
      parameter of the development, as [str.upper] is.  The texts of
      the exceptions ([str(e)]) are ASCII as well.
    - An exception leaves the store and the output as they are at the
      point where it is raised.
    - The handlers are run by several threads ([threaded=True]) next to
      the watchdog.  What a handler does while it holds [state_lock] is
      one step; where it touches the record or the output without the
      lock, what the other threads have done in the meantime is an
      argument of the handler. *)

From Stdlib Require Import ZArith List String Ascii Bool Lia Floats.
Import ListNotations.
Local Open Scope string_scope.
Local Open Scope Z_scope.

(** ** Values *)

Definition datetime := Z.

(** The string [datetime.isoformat()] produces.  The rendering is
    injective, so the string is represented by the instant it renders. *)
Inductive isostring : Type :=
| isoformat (t : datetime).

Set Warnings "-register-all".

(** What [json.loads] builds: [None], [bool], [int], [float], [str],
    [list] and [dict] (as its list of items). *)
Inductive json : Type :=
| JNull
| JBool (b : bool)
| JInt (z : Z)
| JFloat (f : float)
| JStr (s : string)
| JArr (items : list json)
| JObj (items : list (string * json)).

(** Python's truth value of a parsed JSON value, as tested by [not data]. *)
Definition truthy (j : json) : bool :=
  match j with
  | JNull => false
  | JBool b => b
  | JInt z => negb (z =? 0)
  | JFloat f => negb (PrimFloat.eqb f 0%float)
  | JStr s => negb (s =? "")%string
  | JArr items => match items with [] => false | _ :: _ => true end
  | JObj items => match items with [] => false | _ :: _ => true end
  end.

Definition type_name (j : json) : string :=
  match j with
  | JNull => "NoneType"
  | JBool _ => "bool"
  | JInt _ => "int"
  | JFloat _ => "float"
  | JStr _ => "str"
  | JArr _ => "list"
  | JObj _ => "dict"
  end.

(** Lookup of a key among the items of a dict. *)
Fixpoint lookup (key : string) (items : list (string * json)) : option json :=
  match items with
  | [] => None
  | (k, v) :: rest => if (k =? key)%string then Some v else lookup key rest
  end.

(** ** Exceptions *)

Inductive exn : Type :=
| HTTPException (text : string)
| AttributeError (text : string)
| TypeError (text : string)
| ValueError (text : string)
| OverflowError (text : string)
| UnicodeEncodeError (text : string).

(** [str(e)] *)
Definition str_exn (e : exn) : string :=
  match e with
  | HTTPException text => text
  | AttributeError text => text
  | TypeError text => text
  | ValueError text => text
  | OverflowError text => text
  | UnicodeEncodeError text => text
  end.

Definition no_attribute (j : json) (attr : string) : exn :=
  AttributeError ("'" ++ type_name j ++ "' object has no attribute '" ++ attr ++ "'").

(** ** The state record *)

Record detection_state : Type := mk_state {
  position : string;
  timestamp : isostring;
  confidence : json;
  object_detected : json;
  last_update : option datetime
}.

(** [detection_state] as the module creates it, at instant [t0]. *)
Definition initial_state (t0 : datetime) : detection_state :=
  {| position := "STOP";
     timestamp := isoformat t0;
     confidence := JFloat 0%float;
     object_detected := JBool false;
     last_update := None |}.

(** [AUTO_RESET_SECONDS = 2.0], in microseconds. *)
Definition AUTO_RESET_SECONDS : Z := 2000000.

(** [time.sleep(0.5)], in microseconds. *)
Definition POLL_INTERVAL : Z := 500000.

Definition valid_positions : list string := ["LEFT"; "RIGHT"; "CENTER"; "STOP"].

(** [position in valid_positions] *)
Definition position_in (p : string) (l : list string) : bool :=
  existsb (String.eqb p) l.

(** [repr] of a list of strings, as an f-string interpolates it. *)
Definition repr_list (l : list string) : string :=
  "[" ++ String.concat ", " (map (fun s => "'" ++ s ++ "'") l) ++ "]".

(** ** Effects: the store, the standard output and exceptions *)

(** The lines the program prints, before formatting. *)
Inductive log_line : Type :=
| LogAutoReset (time_diff : Z)
| LogUpdate (pos : string) (conf obj : json)
| LogError (text : string)
| LogManual (pos : string).

Record world : Type := mk_world {
  store : detection_state;
  stdout : list log_line
}.

Inductive outcome (A : Type) : Type :=
| Val (a : A)
| Exc (e : exn).
Arguments Val {A} a.
Arguments Exc {A} e.

(** A computation runs in a world and hands back the world it leaves,
    whether it returns or raises. *)
Definition M (A : Type) : Type := world -> outcome A * world.

Definition ret {A : Type} (a : A) : M A := fun w => (Val a, w).

Definition bind {A B : Type} (c : M A) (k : A -> M B) : M B :=
  fun w =>
    match c w with
    | (Val a, w') => k a w'
    | (Exc e, w') => (Exc e, w')
    end.

Definition raise {A : Type} (e : exn) : M A := fun w => (Exc e, w).

(** [try: body  except Exception as e: handler e] *)
Definition try_except {A : Type} (body : M A) (handler : exn -> M A) : M A :=
  fun w =>
    match body w with
    | (Val a, w') => (Val a, w')
    | (Exc e, w') => handler e w'
    end.

Declare Scope py_scope.
Delimit Scope py_scope with py.
Notation "x <- c ;; k" := (bind c (fun x => k))
  (at level 61, c at next level, right associativity) : py_scope.
Notation "c ;; k" := (bind c (fun _ => k))
  (at level 61, right associativity) : py_scope.
Local Open Scope py_scope.

Definition get_store : M detection_state := fun w => (Val (store w), w).

Definition modify_store (f : detection_state -> detection_state) : M unit :=
  fun w => (Val tt, {| store := f (store w); stdout := stdout w |}).

(** [print(text)].  [refusal] is [None] when [sys.stdout] can encode
    the text of the line, and otherwise the text of the
    [UnicodeEncodeError] that the stream raises, nothing being
    appended. *)
Definition print (refusal : option string) (l : log_line) : M unit :=
  fun w =>
    match refusal with
    | None => (Val tt, {| store := store w; stdout := stdout w ++ [l] |})
    | Some text => (Exc (UnicodeEncodeError text), w)
    end.

(** What the other threads do to the world while this one runs without
    the lock. *)
Definition other_threads (others : world -> world) : M unit :=
  fun w => (Val tt, others w).

(** Assignments [detection_state[key] = value], one per key. *)
Definition set_position (v : string) : M unit :=
  modify_store (fun st =>
    {| position := v; timestamp := timestamp st; confidence := confidence st;
       object_detected := object_detected st; last_update := last_update st |}).

Definition set_timestamp (v : isostring) : M unit :=
  modify_store (fun st =>
    {| position := position st; timestamp := v; confidence := confidence st;
       object_detected := object_detected st; last_update := last_update st |}).

Definition set_confidence (v : json) : M unit :=
  modify_store (fun st =>
    {| position := position st; timestamp := timestamp st; confidence := v;
       object_detected := object_detected st; last_update := last_update st |}).

Definition set_object_detected (v : json) : M unit :=
  modify_store (fun st =>
    {| position := position st; timestamp := timestamp st; confidence := confidence st;
       object_detected := v; last_update := last_update st |}).

Definition set_last_update (v : datetime) : M unit :=
  modify_store (fun st =>
    {| position := position st; timestamp := timestamp st; confidence := confidence st;
       object_detected := object_detected st; last_update := Some v |}).

(** ** The watchdog *)

(** One pass of the body of [while True] in [auto_reset_worker], after
    the sleep: [t_check] is the clock read for [time_diff], [t_stamp]
    the clock read for the new timestamp. *)
Definition auto_reset_tick (t_check t_stamp : datetime) : M unit :=
  st <- get_store ;;
  match last_update st with
  | Some lu =>
      let time_diff := t_check - lu in
      if (time_diff >? AUTO_RESET_SECONDS) && negb (position st =? "STOP")%string
      then
        print None (LogAutoReset time_diff) ;;
        set_position "STOP" ;;
        set_object_detected (JBool false) ;;
        set_timestamp (isoformat t_stamp)
      else ret tt
  | None => ret tt
  end.

(** The loop, over the clock readings of its successive passes. *)
Fixpoint auto_reset_worker (passes : list (datetime * datetime)) : M unit :=
  match passes with
  | [] => ret tt
  | (t_check, t_stamp) :: rest =>
      auto_reset_tick t_check t_stamp ;; auto_reset_worker rest
  end.

(** Pacing of the loop: [time.sleep(0.5)] puts at least the polling
    interval between the check instants of two passes and gives no upper
    bound; [gap] is the longest distance the execution at hand shows.
    [prev] is the check instant of the pass before the first of
    [passes]. *)
Fixpoint paced (gap : Z) (prev : datetime) (passes : list (datetime * datetime)) : bool :=
  match passes with
  | [] => true
  | (t_check, _) :: rest =>
      (prev + POLL_INTERVAL <=? t_check) && (t_check <=? prev + gap)
      && paced gap t_check rest
  end.

(** The passes that have run when the clock shows [r]. *)
Definition passes_until (r : datetime) (passes : list (datetime * datetime))
  : list (datetime * datetime) :=
  filter (fun p => fst p <=? r) passes.

(** ** Responses *)

Inductive body : Type :=
| ErrorBody (error : string)
| DetectionBody (message : string) (current_state : detection_state)
| ManualBody (message : string)
| PositionBody (pos : string) (stamp : isostring) (obj : json)
| StatusBody (state : detection_state) (auto_reset_enabled : bool) (auto_reset_seconds : Z).

Record response : Type := mk_response {
  status_code : Z;
  payload : body
}.

(** [GET /api/position] *)
Definition get_position : M response :=
  st <- get_store ;;
  ret (mk_response 200 (PositionBody (position st) (timestamp st) (object_detected st))).

(** [GET /api/status] *)
Definition get_status : M response :=
  st <- get_store ;;
  ret (mk_response 200 (StatusBody st true AUTO_RESET_SECONDS)).

(** ** Python operations the handlers use on parsed values *)

(** The outcome of [request.get_json()]: Flask raises (an
    [HTTPException], which is an [Exception]) on a body it cannot parse,
    and returns the parsed value otherwise; the body [null] parses to
    [None]. *)
Definition request := outcome json.

Definition get_json (req : request) : M json :=
  match req with
  | Val data => ret data
  | Exc e => raise e
  end.

(** [data.get(key, default)]: only a dict has the method. *)
Definition dict_get (data : json) (key : string) (default : json) : M json :=
  match data with
  | JObj items =>
      ret (match lookup key items with Some v => v | None => default end)
  | _ => raise (no_attribute data "get")
  end.

(** The largest magnitude [float(int)] converts: from [2^1024 - 2^970]
    on, the rounded value overflows a double. *)
Definition FLOAT_OVERFLOW : Z := 2 ^ 1024 - 2 ^ 970.

(** Interpolating [{v:.2f}] in an f-string: [int], [bool] and [float]
    have the format code, the other types raise. *)
Definition format_2f (v : json) : M unit :=
  match v with
  | JFloat _ => ret tt
  | JBool _ => ret tt
  | JInt z =>
      if Z.abs z <? FLOAT_OVERFLOW then ret tt
      else raise (OverflowError "int too large to convert to float")
  | JStr _ => raise (ValueError "Unknown format code 'f' for object of type 'str'")
  | _ => raise (TypeError ("unsupported format string passed to "
                           ++ type_name v ++ ".__format__"))
  end.

(** Whether [{v:.2f}] formats. *)
Definition formats_2f (v : json) : bool :=
  match v with
  | JFloat _ => true
  | JBool _ => true
  | JInt z => Z.abs z <? FLOAT_OVERFLOW
  | _ => false
  end.

Definition invalid_position_message : string :=
  "Invalid position. Must be one of: " ++ repr_list valid_positions.

(** ASCII upper-casing: what [str.upper] does on ASCII text. *)
Definition ascii_upper_char (c : ascii) : ascii :=
  let n := nat_of_ascii c in
  if (Nat.leb 97 n && Nat.leb n 122)%bool then ascii_of_nat (n - 32) else c.

Fixpoint ascii_upper (s : string) : string :=
  match s with
  | EmptyString => EmptyString
  | String c rest => String (ascii_upper_char c) (ascii_upper rest)
  end.

(** ** The request handlers *)

Section Handlers.

(** Python's [str.upper]. *)
Variable upper : string -> string.

(** The verdict of [sys.stdout] on the [UPDATE] line, whose text holds
    [str(object_detected)] as the request sent it: [None] when the
    stream can encode the line, otherwise the text of the
    [UnicodeEncodeError]. *)
Variable stdout_refuses : log_line -> option string.

(** [v.upper()]: only a [str] has the method. *)
Definition str_upper (v : json) : M string :=
  match v with
  | JStr s => ret (upper s)
  | _ => raise (no_attribute v "upper")
  end.

(** [POST /api/detection].  [t_stamp] and [t_update] are the two clock
    readings of a successful update, in the order the source makes them.
    The five assignments are made under [state_lock]; the [UPDATE] line
    is printed and the reply is built after the lock has been released:
    [before_print] and [before_reply] are what the other threads do to
    the world before each of the two.  [jsonify] takes the items of the
    shared dict at one instant (it sorts them), which is the read of the
    store below. *)
Definition update_detection_threaded (before_print before_reply : world -> world)
  (t_stamp t_update : datetime) (req : request) : M response :=
  try_except
    (data <- get_json req ;;
     if negb (truthy data)
     then ret (mk_response 400 (ErrorBody "No data provided"))
     else
       p <- dict_get data "position" (JStr "STOP") ;;
       pos <- str_upper p ;;
       conf <- dict_get data "confidence" (JFloat 0%float) ;;
       obj <- dict_get data "object_detected" (JBool false) ;;
       if negb (position_in pos valid_positions)
       then ret (mk_response 400 (ErrorBody invalid_position_message))
       else
         set_position pos ;;
         set_confidence conf ;;
         set_object_detected obj ;;
         set_timestamp (isoformat t_stamp) ;;
         set_last_update t_update ;;
         other_threads before_print ;;
         format_2f conf ;;
         print (stdout_refuses (LogUpdate pos conf obj)) (LogUpdate pos conf obj) ;;
         other_threads before_reply ;;
         st <- get_store ;;
         ret (mk_response 200 (DetectionBody "Detection data updated" st)))
    (fun e =>
       print None (LogError (str_exn e)) ;;
       ret (mk_response 500 (ErrorBody (str_exn e)))).

(** The handler when no other thread runs between the release of the
    lock and the return of the reply. *)
Definition update_detection (t_stamp t_update : datetime) (req : request) : M response :=
  update_detection_threaded (fun w => w) (fun w => w) t_stamp t_update req.

(** [POST /api/manual] *)
Definition manual_control (t_stamp t_update : datetime) (req : request) : M response :=
  try_except
    (data <- get_json req ;;
     p <- dict_get data "position" (JStr "STOP") ;;
     pos <- str_upper p ;;
     if negb (position_in pos valid_positions)
     then ret (mk_response 400 (ErrorBody invalid_position_message))
     else
       set_position pos ;;
       set_timestamp (isoformat t_stamp) ;;
       set_last_update t_update ;;
       set_object_detected (JBool (negb (pos =? "STOP")%string)) ;;
       print None (LogManual pos) ;;
       ret (mk_response 200 (ManualBody ("Motors set to " ++ pos))))
    (fun e => ret (mk_response 500 (ErrorBody (str_exn e)))).

(** ** Executions *)

(** What can act on the store: the two writing handlers, the watchdog
    and the readers. *)
Inductive event : Type :=
| Detection (t_stamp t_update : datetime) (req : request)
| Manual (t_stamp t_update : datetime) (req : request)
| Tick (t_check t_stamp : datetime)
| ReadPosition
| ReadStatus.

Definition perform (ev : event) (w : world) : world :=
  match ev with
  | Detection t1 t2 req => snd (update_detection t1 t2 req w)
  | Manual t1 t2 req => snd (manual_control t1 t2 req w)
  | Tick t1 t2 => snd (auto_reset_tick t1 t2 w)
  | ReadPosition => snd (get_position w)
  | ReadStatus => snd (get_status w)
  end.

(** The lock serialises the critical sections, so the store of an
    execution is that of a sequence of events, each handler run as
    one step. *)
Definition run (evs : list event) (w : world) : world :=
  fold_left (fun w ev => perform ev w) evs w.

(** The world when the module has been loaded at instant [t0]. *)
Definition boot (t0 : datetime) : world :=
  {| store := initial_state t0; stdout := [] |}.

End Handlers.

(** ** Notions used in the statements *)

(** The record [force_reset] leaves: the three assignments of the
    watchdog applied to [st]. *)
Definition reset_state (t_stamp : datetime) (st : detection_state) : detection_state :=
  {| position := "STOP";
     timestamp := isoformat t_stamp;
     confidence := confidence st;
     object_detected := JBool false;
     last_update := last_update st |}.

(** The guard of the pass, as a proposition. *)
Definition stale_and_active (t_check : datetime) (st : detection_state) : Prop :=
  exists lu, last_update st = Some lu
             /\ t_check - lu > AUTO_RESET_SECONDS
             /\ position st <> "STOP".

(** The value [data.get(key, default)] yields on a dict. *)
Definition item_or (key : string) (default : json) (items : list (string * json)) : json :=
  match lookup key items with
  | Some v => v
  | None => default
  end.

(** The record a successful [POST /api/detection] leaves. *)
Definition written_state (pos : string) (conf obj : json) (t_stamp t_update : datetime)
  : detection_state :=
  {| position := pos;
     timestamp := isoformat t_stamp;
     confidence := conf;
     object_detected := obj;
     last_update := Some t_update |}.

(** The record a successful [POST /api/manual] leaves. *)
Definition manual_state (pos : string) (t_stamp t_update : datetime) (st : detection_state)
  : detection_state :=
  {| position := pos;
     timestamp := isoformat t_stamp;
     confidence := confidence st;
     object_detected := JBool (negb (pos =? "STOP")%string);
     last_update := Some t_update |}.

(** The events that write from outside: the two POST handlers. *)
Definition external_write (ev : event) : bool :=
  match ev with
  | Detection _ _ _ => true
  | Manual _ _ _ => true
  | _ => false
  end.

(** The events that only read. *)
Definition is_read (ev : event) : bool :=
  match ev with
  | ReadPosition => true
  | ReadStatus => true
  | _ => false
  end.

(** The AUTO-RESET lines of the output, one per forced reset. *)
Definition is_auto_reset (l : log_line) : bool :=
  match l with
  | LogAutoReset _ => true
  | _ => false
  end.

Definition auto_resets (w : world) : nat :=
  List.length (filter is_auto_reset (stdout w)).

Definition external_writes (evs : list event) : nat :=
  List.length (filter external_write evs).

(** Whether the motors are commanded to move: 1 unless position is STOP. *)
Definition moving (w : world) : nat :=
  if (position (store w) =? "STOP")%string then 0%nat else 1%nat.

(** ** Data of the concrete runs

    The runs use [ascii_upper] for [str.upper]; every position they
    send is ASCII text, on which the two agree.  Their standard output
    is [tolerant_stdout]. *)

(** A [sys.stdout] whose error handler replaces what the encoding
    lacks (as with [PYTHONIOENCODING=utf-8:backslashreplace]): it takes
    every line. *)
Definition tolerant_stdout : log_line -> option string := fun _ => None.

(** The string made of the lone surrogate U+D800, which the JSON text
    ["\ud800"] parses to, in the three bytes that stand for it here. *)
Definition lone_surrogate : string :=
  String (ascii_of_nat 237) (String (ascii_of_nat 160) (String (ascii_of_nat 128) "")).

(** The verdict of a strict UTF-8 [sys.stdout] (Python's default) on
    the lines that the runs below print: it refuses the [UPDATE] line
    of position LEFT, confidence 0.5 and object_detected
    [lone_surrogate], whose text has the surrogate at index 51. *)
Definition strict_utf8_stdout (l : log_line) : option string :=
  match l with
  | LogUpdate pos (JFloat f) (JStr s) =>
      if (pos =? "LEFT")%string && PrimFloat.eqb f 0.5%float && (s =? lone_surrogate)%string
      then Some "'utf-8' codec can't encode character '\ud800' in position 51: surrogates not allowed"
      else None
  | _ => None
  end.

(** The body of the end-to-end scenario, and the world after it has
    been posted one second after the module was loaded. *)
Definition left_body : list (string * json) :=
  [("position", JStr "left"); ("confidence", JFloat 0.875%float);
   ("object_detected", JBool true)].

Definition after_left_write : world :=
  snd (update_detection ascii_upper tolerant_stdout 1000000 1000000 (Val (JObj left_body)) (boot 0)).

(** Two schedules of the watchdog after a write at instant 0: passes
    every 500 ms, the fifth one 2 microseconds late in the first. *)
Definition late_schedule : list (datetime * datetime) :=
  [(500000, 500000); (1000000, 1000000); (1500000, 1500000);
   (2000000, 2000000); (2500002, 2500002)].

Definition even_schedule : list (datetime * datetime) :=
  [(500000, 500000); (1000000, 1000000); (1500000, 1500000);
   (2000000, 2000000); (2500000, 2500000); (3000000, 3000000)].

(** A world whose last write, of LEFT, was made at instant 0. *)
Definition stale_world : world :=
  {| store := written_state "LEFT" (JFloat 0.875%float) (JBool true) 0 0;
     stdout := [] |}.

(** * Properties *)

(** ** The watchdog pass *)

Lemma tick_fires (t_check t_stamp lu : datetime) (w : world) :
  last_update (store w) = Some lu ->
  t_check - lu > AUTO_RESET_SECONDS ->
  position (store w) <> "STOP" ->
  auto_reset_tick t_check t_stamp w =
  (Val tt, {| store := reset_state t_stamp (store w);
              stdout := stdout w ++ [LogAutoReset (t_check - lu)] |}).
Proof.
  intros Hlu Hgt Hpos.
  unfold auto_reset_tick, bind, get_store. rewrite Hlu.
  apply Z.gtb_gt in Hgt. rewrite Hgt.
  apply String.eqb_neq in Hpos. rewrite Hpos. reflexivity.
Qed.

Lemma tick_idle (t_check t_stamp : datetime) (w : world) :
  ~ stale_and_active t_check (store w) ->
  auto_reset_tick t_check t_stamp w = (Val tt, w).
Proof.
  intros Hno.
  unfold auto_reset_tick, bind, get_store.
  destruct (last_update (store w)) as [lu|] eqn:Hlu; [|reflexivity].
  destruct (t_check - lu >? AUTO_RESET_SECONDS) eqn:Hgt; [|reflexivity].
  destruct (position (store w) =? "STOP")%string eqn:Hpos; [reflexivity|].
  exfalso. apply Hno. exists lu. split; [exact Hlu|]. split.
  - apply Z.gtb_gt. exact Hgt.
  - apply String.eqb_neq. exact Hpos.
Qed.

Lemma stale_and_active_dec (t_check : datetime) (st : detection_state) :
  stale_and_active t_check st \/ ~ stale_and_active t_check st.
Proof.
  destruct (last_update st) as [lu|] eqn:Hlu.
  - destruct (Z_gt_dec (t_check - lu) AUTO_RESET_SECONDS) as [Hgt|Hle].
    + destruct (string_dec (position st) "STOP") as [Heq|Hne].
      * right. intros (lu' & _ & _ & Hp). contradiction.
      * left. exists lu. auto.
    + right. intros (lu' & Hs & Hg & _). rewrite Hlu in Hs.
      injection Hs as <-. contradiction.
  - right. intros (lu' & Hs & _). rewrite Hlu in Hs. discriminate.
Qed.

Lemma app_singleton_neq {A : Type} (l : list A) (x : A) : (l ++ [x])%list <> l.
Proof.
  intros H. apply (f_equal (@List.length A)) in H.
  rewrite length_app in H. simpl in H. lia.
Qed.

(** C1: a watchdog pass performs the forced reset (position STOP,
    object_detected false, fresh timestamp, and the AUTO-RESET line on
    the output) if and only if last_update is set, more than
    AUTO_RESET_SECONDS have elapsed since it and position is not STOP;
    in every other case the pass leaves the whole world as it was. *)
Theorem tick_resets_iff_stale_and_active (t_check t_stamp : datetime) (w : world) :
  (snd (auto_reset_tick t_check t_stamp w) <> w
   <-> stale_and_active t_check (store w))
  /\ (stale_and_active t_check (store w) ->
      store (snd (auto_reset_tick t_check t_stamp w)) = reset_state t_stamp (store w)
      /\ exists d, stdout (snd (auto_reset_tick t_check t_stamp w))
                   = (stdout w ++ [LogAutoReset d])%list)
  /\ (~ stale_and_active t_check (store w) ->
      auto_reset_tick t_check t_stamp w = (Val tt, w)).
Proof.
  split; [|split].
  - split.
    + intros Hchg.
      destruct (stale_and_active_dec t_check (store w)) as [H|H]; [exact H|].
      rewrite (tick_idle _ t_stamp _ H) in Hchg. simpl in Hchg. contradiction.
    + intros (lu & Hlu & Hgt & Hpos).
      rewrite (tick_fires _ t_stamp _ _ Hlu Hgt Hpos). simpl.
      intros Heq. apply (f_equal stdout) in Heq. simpl in Heq.
      exact (app_singleton_neq _ _ Heq).
  - intros (lu & Hlu & Hgt & Hpos).
    rewrite (tick_fires _ t_stamp _ _ Hlu Hgt Hpos). simpl.
    split; [reflexivity|]. eexists. reflexivity.
  - apply tick_idle.
Qed.

Lemma tick_returns (t_check t_stamp : datetime) (w : world) :
  fst (auto_reset_tick t_check t_stamp w) = Val tt.
Proof.
  destruct (stale_and_active_dec t_check (store w)) as [(lu & Hlu & Hgt & Hpos)|H].
  - rewrite (tick_fires _ t_stamp _ _ Hlu Hgt Hpos). reflexivity.
  - rewrite (tick_idle _ t_stamp _ H). reflexivity.
Qed.

Lemma worker_cons (t_check t_stamp : datetime) (rest : list (datetime * datetime)) (w : world) :
  auto_reset_worker ((t_check, t_stamp) :: rest) w =
  auto_reset_worker rest (snd (auto_reset_tick t_check t_stamp w)).
Proof.
  simpl. unfold bind.
  pose proof (tick_returns t_check t_stamp w) as Hret.
  destruct (auto_reset_tick t_check t_stamp w) as [[[]|e] w']; simpl in *;
    [reflexivity|discriminate].
Qed.

Lemma tick_frame (t_check t_stamp : datetime) (w : world) :
  last_update (store (snd (auto_reset_tick t_check t_stamp w))) = last_update (store w)
  /\ confidence (store (snd (auto_reset_tick t_check t_stamp w))) = confidence (store w).
Proof.
  destruct (stale_and_active_dec t_check (store w)) as [(lu & Hlu & Hgt & Hpos)|H].
  - rewrite (tick_fires _ t_stamp _ _ Hlu Hgt Hpos). simpl. split; reflexivity.
  - rewrite (tick_idle _ t_stamp _ H). simpl. split; reflexivity.
Qed.

Lemma worker_frame (passes : list (datetime * datetime)) (w : world) :
  last_update (store (snd (auto_reset_worker passes w))) = last_update (store w)
  /\ confidence (store (snd (auto_reset_worker passes w))) = confidence (store w).
Proof.
  revert w. induction passes as [|[t_check t_stamp] rest IH]; intros w.
  - simpl. split; reflexivity.
  - rewrite worker_cons.
    destruct (IH (snd (auto_reset_tick t_check t_stamp w))) as [Hl Hc].
    destruct (tick_frame t_check t_stamp w) as [Hl' Hc'].
    split; congruence.
Qed.

(** C3: the forced reset of the watchdog writes position,
    object_detected and timestamp only: a pass, and any number of passes
    of the loop, leave last_update and confidence as they were, whether
    the reset happens or not. *)
Theorem watchdog_never_touches_last_update_or_confidence
  (t_check t_stamp : datetime) (passes : list (datetime * datetime)) (w : world) :
  last_update (store (snd (auto_reset_tick t_check t_stamp w))) = last_update (store w)
  /\ confidence (store (snd (auto_reset_tick t_check t_stamp w))) = confidence (store w)
  /\ last_update (store (snd (auto_reset_worker passes w))) = last_update (store w)
  /\ confidence (store (snd (auto_reset_worker passes w))) = confidence (store w).
Proof.
  destruct (tick_frame t_check t_stamp w) as [Hl Hc].
  destruct (worker_frame passes w) as [Hl' Hc'].
  repeat split; assumption.
Qed.

(** Once position is STOP a pass has nothing to do. *)
Lemma tick_idle_at_stop (t_check t_stamp : datetime) (w : world) :
  position (store w) = "STOP" ->
  auto_reset_tick t_check t_stamp w = (Val tt, w).
Proof.
  intros Hstop. apply tick_idle. intros (lu & _ & _ & Hpos). contradiction.
Qed.

Lemma worker_idle_at_stop (passes : list (datetime * datetime)) (w : world) :
  position (store w) = "STOP" ->
  auto_reset_worker passes w = (Val tt, w).
Proof.
  intros Hstop. induction passes as [|[t_check t_stamp] rest IH].
  - reflexivity.
  - rewrite worker_cons, (tick_idle_at_stop _ _ _ Hstop). exact IH.
Qed.

(** The safety argument of the watchdog: with last_update at [lu] and
    object_detected false whenever position is STOP, one pass later
    than [lu + AUTO_RESET_SECONDS] is enough for the loop to end in STOP
    with object_detected false. *)
Lemma worker_reaches_stop (passes : list (datetime * datetime)) (w : world) (lu : datetime) :
  last_update (store w) = Some lu ->
  (position (store w) = "STOP" -> object_detected (store w) = JBool false) ->
  (exists p, In p passes /\ fst p - lu > AUTO_RESET_SECONDS) ->
  position (store (snd (auto_reset_worker passes w))) = "STOP"
  /\ object_detected (store (snd (auto_reset_worker passes w))) = JBool false.
Proof.
  revert w. induction passes as [|[t_check t_stamp] rest IH]; intros w Hlu Hsafe (p & Hin & Hlate).
  - destruct Hin.
  - rewrite worker_cons.
    destruct (string_dec (position (store w)) "STOP") as [Hstop|Hmove].
    + rewrite (tick_idle_at_stop _ _ _ Hstop). simpl.
      rewrite (worker_idle_at_stop _ _ Hstop). simpl. auto.
    + destruct Hin as [<-|Hin]; simpl in Hlate.
      * rewrite (tick_fires _ t_stamp _ _ Hlu Hlate Hmove). simpl.
        rewrite worker_idle_at_stop by reflexivity. simpl. auto.
      * destruct (stale_and_active_dec t_check (store w)) as [(lu' & Hlu' & Hgt & Hpos)|Hidle].
        -- rewrite (tick_fires _ t_stamp _ _ Hlu' Hgt Hpos). simpl.
           rewrite worker_idle_at_stop by reflexivity. simpl. auto.
        -- rewrite (tick_idle _ t_stamp _ Hidle). simpl.
           apply IH; [exact Hlu|exact Hsafe|exists p; auto].
Qed.

(** ** The writing handlers *)

Lemma dict_get_items (items : list (string * json)) (key : string) (default : json) (w : world) :
  dict_get (JObj items) key default w = (Val (item_or key default items), w).
Proof. reflexivity. Qed.

Lemma format_2f_outcome (v : json) (w : world) :
  (formats_2f v = true /\ format_2f v w = (Val tt, w))
  \/ (formats_2f v = false /\ exists e, format_2f v w = (Exc e, w)).
Proof.
  destruct v; simpl; try (left; split; reflexivity);
    try (right; split; [reflexivity|eexists; reflexivity]).
  unfold format_2f, formats_2f.
  destruct (Z.abs z <? FLOAT_OVERFLOW).
  - left. split; reflexivity.
  - right. split; [reflexivity|eexists; reflexivity].
Qed.

Lemma position_in_valid (p : string) :
  position_in p valid_positions = true <-> In p valid_positions.
Proof.
  unfold position_in. rewrite existsb_exists. split.
  - intros (x & Hin & Heq). apply String.eqb_eq in Heq. subst. exact Hin.
  - intros Hin. exists p. split; [exact Hin|apply String.eqb_refl].
Qed.

Lemma lookup_nonempty (key : string) (items : list (string * json)) (v : json) :
  lookup key items = Some v -> truthy (JObj items) = true.
Proof. destruct items; [discriminate|reflexivity]. Qed.

(** Running a sequence: the first computation returns or raises. *)
Lemma bind_val {A B : Type} (c : M A) (k : A -> M B) (w w' : world) (a : A) :
  c w = (Val a, w') -> bind c k w = k a w'.
Proof. intros H. unfold bind. rewrite H. reflexivity. Qed.

Lemma bind_exc {A B : Type} (c : M A) (k : A -> M B) (w w' : world) (e : exn) :
  c w = (Exc e, w') -> bind c k w = (Exc e, w').
Proof. intros H. unfold bind. rewrite H. reflexivity. Qed.

Ltac returns_by lem := erewrite bind_val by (apply lem).
Ltac returns := erewrite bind_val by reflexivity.
Ltac raises := erewrite bind_exc by reflexivity.
Ltac dict_step its :=
  rewrite (bind_val (dict_get (JObj its) _ _) _ _ _ _ (dict_get_items its _ _ _)).

Section HandlerFacts.

Variable upper : string -> string.
Variable stdout_refuses : log_line -> option string.

Lemma update_detection_raised (t_stamp t_update : datetime) (e : exn) (w : world) :
  update_detection upper stdout_refuses t_stamp t_update (Exc e) w =
  (Val (mk_response 500 (ErrorBody (str_exn e))),
   {| store := store w; stdout := stdout w ++ [LogError (str_exn e)] |}).
Proof. reflexivity. Qed.

Lemma update_detection_no_data (t_stamp t_update : datetime) (data : json) (w : world) :
  truthy data = false ->
  update_detection upper stdout_refuses t_stamp t_update (Val data) w =
  (Val (mk_response 400 (ErrorBody "No data provided")), w).
Proof.
  intros Hfalsy. unfold update_detection, update_detection_threaded, try_except.
  returns. rewrite Hfalsy. reflexivity.
Qed.

Lemma update_detection_invalid (t_stamp t_update : datetime)
  (items : list (string * json)) (p : string) (w : world) :
  truthy (JObj items) = true ->
  item_or "position" (JStr "STOP") items = JStr p ->
  position_in (upper p) valid_positions = false ->
  update_detection upper stdout_refuses t_stamp t_update (Val (JObj items)) w =
  (Val (mk_response 400 (ErrorBody invalid_position_message)), w).
Proof.
  intros Htruthy Hp Hbad. unfold update_detection, update_detection_threaded, try_except.
  returns. rewrite Htruthy. cbn [negb].
  returns_by dict_get_items. rewrite Hp.
  returns. returns_by dict_get_items. returns_by dict_get_items.
  rewrite Hbad. reflexivity.
Qed.

(** A valid request in the threaded handler: the record is written
    under the lock, the other threads act, and then either the line is
    printed and the reply is built from the record as it stands after
    the other threads have acted again, or the formatting or the
    printing raises and the handler of [except] answers. *)
Lemma update_detection_threaded_valid (before_print before_reply : world -> world)
  (t_stamp t_update : datetime) (items : list (string * json)) (p : string) (w : world) :
  truthy (JObj items) = true ->
  item_or "position" (JStr "STOP") items = JStr p ->
  position_in (upper p) valid_positions = true ->
  let conf := item_or "confidence" (JFloat 0%float) items in
  let obj := item_or "object_detected" (JBool false) items in
  let st := written_state (upper p) conf obj t_stamp t_update in
  let w1 := before_print {| store := st; stdout := stdout w |} in
  let w2 := before_reply {| store := store w1;
                            stdout := stdout w1 ++ [LogUpdate (upper p) conf obj] |} in
  (formats_2f conf = true /\ stdout_refuses (LogUpdate (upper p) conf obj) = None /\
   update_detection_threaded upper stdout_refuses before_print before_reply
     t_stamp t_update (Val (JObj items)) w =
   (Val (mk_response 200 (DetectionBody "Detection data updated" (store w2))), w2))
  \/
  (formats_2f conf = true /\ exists text,
   stdout_refuses (LogUpdate (upper p) conf obj) = Some text /\
   update_detection_threaded upper stdout_refuses before_print before_reply
     t_stamp t_update (Val (JObj items)) w =
   (Val (mk_response 500 (ErrorBody text)),
    {| store := store w1; stdout := stdout w1 ++ [LogError text] |}))
  \/
  (formats_2f conf = false /\ exists e,
   update_detection_threaded upper stdout_refuses before_print before_reply
     t_stamp t_update (Val (JObj items)) w =
   (Val (mk_response 500 (ErrorBody (str_exn e))),
    {| store := store w1; stdout := stdout w1 ++ [LogError (str_exn e)] |})).
Proof.
  intros Htruthy Hp Hok conf obj st w1 w2. unfold update_detection_threaded, try_except.
  returns. rewrite Htruthy. cbn [negb].
  returns_by dict_get_items. rewrite Hp.
  returns. returns_by dict_get_items. returns_by dict_get_items.
  rewrite Hok. cbn [negb].
  do 6 returns. fold conf obj. cbn [store stdout position timestamp confidence
    object_detected last_update].
  fold (written_state (upper p) conf obj t_stamp t_update). fold st. fold w1.
  match goal with
  | |- context [bind (format_2f ?c) _ ?W] =>
      destruct (format_2f_outcome c W) as [[Hf Hrun]|[Hf [e Hrun]]]
  end.
  - erewrite bind_val by exact Hrun.
    destruct (stdout_refuses (LogUpdate (upper p) conf obj)) as [text|] eqn:Hout.
    + right; left. split; [exact Hf|]. exists text. split; [reflexivity|].
      unfold print at 1. raises. reflexivity.
    + left. split; [exact Hf|]. split; [reflexivity|]. reflexivity.
  - right; right. split; [exact Hf|]. exists e.
    erewrite bind_exc by exact Hrun. reflexivity.
Qed.

(** The same for the handler alone.  In each case the record is
    written. *)
Lemma update_detection_valid (t_stamp t_update : datetime)
  (items : list (string * json)) (p : string) (w : world) :
  truthy (JObj items) = true ->
  item_or "position" (JStr "STOP") items = JStr p ->
  position_in (upper p) valid_positions = true ->
  let conf := item_or "confidence" (JFloat 0%float) items in
  let obj := item_or "object_detected" (JBool false) items in
  let st := written_state (upper p) conf obj t_stamp t_update in
  (formats_2f conf = true /\ stdout_refuses (LogUpdate (upper p) conf obj) = None /\
   update_detection upper stdout_refuses t_stamp t_update (Val (JObj items)) w =
   (Val (mk_response 200 (DetectionBody "Detection data updated" st)),
    {| store := st; stdout := stdout w ++ [LogUpdate (upper p) conf obj] |}))
  \/
  (formats_2f conf = true /\ exists text,
   stdout_refuses (LogUpdate (upper p) conf obj) = Some text /\
   update_detection upper stdout_refuses t_stamp t_update (Val (JObj items)) w =
   (Val (mk_response 500 (ErrorBody text)),
    {| store := st; stdout := stdout w ++ [LogError text] |}))
  \/
  (formats_2f conf = false /\ exists e,
   update_detection upper stdout_refuses t_stamp t_update (Val (JObj items)) w =
   (Val (mk_response 500 (ErrorBody (str_exn e))),
    {| store := st; stdout := stdout w ++ [LogError (str_exn e)] |})).
Proof.
  intros Htruthy Hp Hok.
  exact (update_detection_threaded_valid (fun w => w) (fun w => w)
           t_stamp t_update items p w Htruthy Hp Hok).
Qed.

(** Whatever becomes of the log line, a valid request has written the
    record when the handler returns. *)
Lemma update_detection_written (t_stamp t_update : datetime)
  (items : list (string * json)) (p : string) (w : world) :
  truthy (JObj items) = true ->
  item_or "position" (JStr "STOP") items = JStr p ->
  position_in (upper p) valid_positions = true ->
  store (snd (update_detection upper stdout_refuses t_stamp t_update (Val (JObj items)) w))
  = written_state (upper p)
      (item_or "confidence" (JFloat 0%float) items)
      (item_or "object_detected" (JBool false) items) t_stamp t_update.
Proof.
  intros Htruthy Hp Hok.
  destruct (update_detection_valid t_stamp t_update items p w Htruthy Hp Hok)
    as [(_ & _ & Hrun)|[(_ & text & _ & Hrun)|(_ & e & Hrun)]];
    rewrite Hrun; reflexivity.
Qed.

(** A body that is no dict has no [get]; a position that is no string
    has no [upper]: both end in the handler of [except Exception]. *)
Lemma update_detection_not_dict (t_stamp t_update : datetime) (data : json) (w : world) :
  truthy data = true ->
  (forall items, data <> JObj items) ->
  update_detection upper stdout_refuses t_stamp t_update (Val data) w =
  (Val (mk_response 500 (ErrorBody (str_exn (no_attribute data "get")))),
   {| store := store w;
      stdout := stdout w ++ [LogError (str_exn (no_attribute data "get"))] |}).
Proof.
  intros Htruthy Hnodict. unfold update_detection, update_detection_threaded, try_except.
  returns. rewrite Htruthy. cbn [negb].
  destruct data; try (raises; reflexivity).
  exfalso. exact (Hnodict _ eq_refl).
Qed.

Lemma update_detection_position_not_str (t_stamp t_update : datetime)
  (items : list (string * json)) (w : world) :
  truthy (JObj items) = true ->
  (forall p, item_or "position" (JStr "STOP") items <> JStr p) ->
  update_detection upper stdout_refuses t_stamp t_update (Val (JObj items)) w =
  (Val (mk_response 500
          (ErrorBody (str_exn (no_attribute (item_or "position" (JStr "STOP") items) "upper")))),
   {| store := store w;
      stdout := stdout w ++
        [LogError (str_exn (no_attribute (item_or "position" (JStr "STOP") items) "upper"))] |}).
Proof.
  intros Htruthy Hnostr. unfold update_detection, update_detection_threaded, try_except.
  returns. rewrite Htruthy. cbn [negb].
  returns_by dict_get_items.
  destruct (item_or "position" (JStr "STOP") items); try (raises; reflexivity).
  exfalso. exact (Hnostr _ eq_refl).
Qed.

Lemma manual_control_raised (t_stamp t_update : datetime) (e : exn) (w : world) :
  manual_control upper t_stamp t_update (Exc e) w =
  (Val (mk_response 500 (ErrorBody (str_exn e))), w).
Proof. reflexivity. Qed.

Lemma manual_control_not_dict (t_stamp t_update : datetime) (data : json) (w : world) :
  (forall items, data <> JObj items) ->
  manual_control upper t_stamp t_update (Val data) w =
  (Val (mk_response 500 (ErrorBody (str_exn (no_attribute data "get")))), w).
Proof.
  intros Hnodict. unfold manual_control, try_except. returns.
  destruct data; try (raises; reflexivity).
  exfalso. exact (Hnodict _ eq_refl).
Qed.

Lemma manual_control_position_not_str (t_stamp t_update : datetime)
  (items : list (string * json)) (w : world) :
  (forall p, item_or "position" (JStr "STOP") items <> JStr p) ->
  manual_control upper t_stamp t_update (Val (JObj items)) w =
  (Val (mk_response 500
          (ErrorBody (str_exn (no_attribute (item_or "position" (JStr "STOP") items) "upper")))),
   w).
Proof.
  intros Hnostr. unfold manual_control, try_except. returns.
  returns_by dict_get_items.
  destruct (item_or "position" (JStr "STOP") items); try (raises; reflexivity).
  exfalso. exact (Hnostr _ eq_refl).
Qed.

Lemma manual_control_invalid (t_stamp t_update : datetime)
  (items : list (string * json)) (p : string) (w : world) :
  item_or "position" (JStr "STOP") items = JStr p ->
  position_in (upper p) valid_positions = false ->
  manual_control upper t_stamp t_update (Val (JObj items)) w =
  (Val (mk_response 400 (ErrorBody invalid_position_message)), w).
Proof.
  intros Hp Hbad. unfold manual_control, try_except. returns.
  returns_by dict_get_items. rewrite Hp. returns.
  rewrite Hbad. reflexivity.
Qed.

Lemma manual_control_valid (t_stamp t_update : datetime)
  (items : list (string * json)) (p : string) (w : world) :
  item_or "position" (JStr "STOP") items = JStr p ->
  position_in (upper p) valid_positions = true ->
  manual_control upper t_stamp t_update (Val (JObj items)) w =
  (Val (mk_response 200 (ManualBody ("Motors set to " ++ upper p))),
   {| store := manual_state (upper p) t_stamp t_update (store w);
      stdout := stdout w ++ [LogManual (upper p)] |}).
Proof.
  intros Hp Hok. unfold manual_control, try_except. returns.
  returns_by dict_get_items. rewrite Hp. returns.
  rewrite Hok. reflexivity.
Qed.

(** Whatever the request, a writing handler either leaves the store
    alone or leaves a record whose position passed the membership
    test. *)
Lemma json_str_dec (v : json) : (exists p, v = JStr p) \/ (forall p, v <> JStr p).
Proof. destruct v; try (right; intros p H; discriminate). left. eexists. reflexivity. Qed.

Lemma json_obj_dec (v : json) : (exists items, v = JObj items) \/ (forall items, v <> JObj items).
Proof. destruct v; try (right; intros p H; discriminate). left. eexists. reflexivity. Qed.

Lemma update_detection_store (t_stamp t_update : datetime) (req : request) (w : world) :
  store (snd (update_detection upper stdout_refuses t_stamp t_update req w)) = store w
  \/ exists pos conf obj,
       position_in pos valid_positions = true
       /\ store (snd (update_detection upper stdout_refuses t_stamp t_update req w))
          = written_state pos conf obj t_stamp t_update.
Proof.
  destruct req as [data|e]; [|left; reflexivity].
  destruct (truthy data) eqn:Htruthy;
    [|left; rewrite update_detection_no_data by exact Htruthy; reflexivity].
  destruct (json_obj_dec data) as [[items ->]|Hnodict];
    [|left; rewrite update_detection_not_dict by assumption; reflexivity].
  destruct (json_str_dec (item_or "position" (JStr "STOP") items)) as [[p Hp]|Hnostr];
    [|left; rewrite update_detection_position_not_str by assumption; reflexivity].
  destruct (position_in (upper p) valid_positions) eqn:Hok;
    [|left; rewrite (update_detection_invalid _ _ _ p) by assumption; reflexivity].
  right. exists (upper p). do 2 eexists. split; [exact Hok|].
  destruct (update_detection_valid t_stamp t_update items p w Htruthy Hp Hok)
    as [(_ & _ & Hrun)|[(_ & text & _ & Hrun)|(_ & e & Hrun)]]; rewrite Hrun; reflexivity.
Qed.

Lemma manual_control_store (t_stamp t_update : datetime) (req : request) (w : world) :
  store (snd (manual_control upper t_stamp t_update req w)) = store w
  \/ exists pos,
       position_in pos valid_positions = true
       /\ store (snd (manual_control upper t_stamp t_update req w))
          = manual_state pos t_stamp t_update (store w).
Proof.
  destruct req as [data|e]; [|left; reflexivity].
  destruct (json_obj_dec data) as [[items ->]|Hnodict];
    [|left; rewrite manual_control_not_dict by assumption; reflexivity].
  destruct (json_str_dec (item_or "position" (JStr "STOP") items)) as [[p Hp]|Hnostr];
    [|left; rewrite manual_control_position_not_str by assumption; reflexivity].
  destruct (position_in (upper p) valid_positions) eqn:Hok;
    [|left; rewrite (manual_control_invalid _ _ _ p) by assumption; reflexivity].
  right. exists (upper p). split; [exact Hok|].
  rewrite (manual_control_valid _ _ _ p) by assumption. reflexivity.
Qed.

End HandlerFacts.

Lemma item_or_found (key : string) (default v : json) (items : list (string * json)) :
  lookup key items = Some v -> item_or key default items = v.
Proof. intros H. unfold item_or. rewrite H. reflexivity. Qed.

Lemma lookup_app (key : string) (l1 l2 : list (string * json)) :
  lookup key (l1 ++ l2) =
  match lookup key l1 with
  | Some v => Some v
  | None => lookup key l2
  end.
Proof.
  induction l1 as [|[k v] l1 IH]; simpl; [reflexivity|].
  destruct (k =? key)%string; [reflexivity|exact IH].
Qed.

(** Adding an item at the end of a dict: the value under its own key
    is the old one if there was one, and no other key sees it. *)
Lemma item_or_snoc_same (key : string) (default : json) (items : list (string * json)) :
  item_or key default (items ++ [(key, default)]) = item_or key default items.
Proof.
  unfold item_or. rewrite lookup_app. simpl. rewrite String.eqb_refl.
  destruct (lookup key items); reflexivity.
Qed.

Lemma item_or_snoc_other (key key' : string) (default v : json) (items : list (string * json)) :
  key' <> key ->
  item_or key default (items ++ [(key', v)]) = item_or key default items.
Proof.
  intros Hne. unfold item_or. rewrite lookup_app. simpl.
  apply String.eqb_neq in Hne. rewrite Hne.
  destruct (lookup key items); reflexivity.
Qed.

Lemma truthy_snoc (items : list (string * json)) (kv : string * json) :
  truthy (JObj items) = true -> truthy (JObj (items ++ [kv])) = true.
Proof. destruct items; [discriminate|reflexivity]. Qed.

Lemma bind_ext {A B : Type} (c : M A) (k k' : A -> M B) (w : world) :
  (forall a w', k a w' = k' a w') -> bind c k w = bind c k' w.
Proof.
  intros H. unfold bind. destruct (c w) as [[a|e] w']; [apply H|reflexivity].
Qed.

Lemma try_except_cong {A : Type} (body body' : M A) (handler : exn -> M A) (w : world) :
  body w = body' w -> try_except body handler w = try_except body' handler w.
Proof. intros H. unfold try_except. rewrite H. reflexivity. Qed.

Section WriteFacts.

Variable upper : string -> string.
Variable stdout_refuses : log_line -> option string.

(** [update_detection] sees of a dict its truth value and what [get]
    yields for the three keys, nothing else. *)
Lemma update_detection_ext (t_stamp t_update : datetime)
  (items items' : list (string * json)) (w : world) :
  truthy (JObj items) = truthy (JObj items') ->
  item_or "position" (JStr "STOP") items = item_or "position" (JStr "STOP") items' ->
  item_or "confidence" (JFloat 0%float) items = item_or "confidence" (JFloat 0%float) items' ->
  item_or "object_detected" (JBool false) items
    = item_or "object_detected" (JBool false) items' ->
  update_detection upper stdout_refuses t_stamp t_update (Val (JObj items)) w =
  update_detection upper stdout_refuses t_stamp t_update (Val (JObj items')) w.
Proof.
  intros Ht Hp Hc Ho. unfold update_detection, update_detection_threaded. apply try_except_cong.
  rewrite (bind_val (get_json (Val (JObj items))) _ w w _ eq_refl).
  rewrite (bind_val (get_json (Val (JObj items'))) _ w w _ eq_refl).
  rewrite Ht.
  destruct (truthy (JObj items')); cbn [negb]; [|reflexivity].
  dict_step items. dict_step items'. rewrite Hp.
  apply bind_ext. intros pos w1.
  dict_step items. dict_step items'. rewrite Hc.
  dict_step items. dict_step items'. rewrite Ho.
  reflexivity.
Qed.

End WriteFacts.

Lemma no_data_is_not_the_list : "No data provided" <> invalid_position_message.
Proof. intros H. vm_compute in H. discriminate. Qed.

(** Where the position that the handlers look at comes from: the item
    of the dict, or the default when the key is absent. *)
Lemma item_or_position (items : list (string * json)) (p : string) :
  item_or "position" (JStr "STOP") items = JStr p ->
  lookup "position" items = Some (JStr p)
  \/ (lookup "position" items = None /\ p = "STOP").
Proof.
  unfold item_or. destruct (lookup "position" items) as [v|].
  - intros ->. left. reflexivity.
  - intros [= <-]. right. split; reflexivity.
Qed.

Lemma position_item_or (items : list (string * json)) (p : string) :
  lookup "position" items = Some (JStr p)
  \/ (lookup "position" items = None /\ p = "STOP") ->
  item_or "position" (JStr "STOP") items = JStr p.
Proof.
  unfold item_or. intros [->|[-> ->]]; reflexivity.
Qed.

(** ** What the writing handlers guarantee *)

Section WriteClaims.

Variable upper : string -> string.
Variable stdout_refuses : log_line -> option string.

(** C4 (amended): for every POST /api/detection whose body supplies a
    position string with a valid upper-cased form, a confidence and an
    object_detected, the handler replaces position (upper-cased),
    confidence and object_detected by the supplied values and sets
    timestamp and last_update to the clock readings of the call, so that
    the readers that follow return exactly the written values.  When
    the log line can be produced, that is when the confidence is a
    number that [.2f] formats and the standard output can encode the
    line, the response is 200 and its current_state is the shared
    record as it stands when the reply is built, after what the other
    threads have done since the lock was released: the updated record
    if they have not changed the record, and in particular when the
    handler runs alone.  When the confidence formats and the standard
    output cannot encode the line, the response is 500 with the text of
    the encoding error. *)
Theorem write_replaces_record (t_stamp t_update : datetime)
  (items : list (string * json)) (p : string) (conf obj : json) (w : world)
  (before_print before_reply : world -> world) :
  lookup "position" items = Some (JStr p) ->
  lookup "confidence" items = Some conf ->
  lookup "object_detected" items = Some obj ->
  position_in (upper p) valid_positions = true ->
  store (snd (update_detection upper stdout_refuses t_stamp t_update (Val (JObj items)) w))
  = written_state (upper p) conf obj t_stamp t_update
  /\ fst (get_position (snd (update_detection upper stdout_refuses t_stamp t_update (Val (JObj items)) w)))
     = Val (mk_response 200 (PositionBody (upper p) (isoformat t_stamp) obj))
  /\ fst (get_status (snd (update_detection upper stdout_refuses t_stamp t_update (Val (JObj items)) w)))
     = Val (mk_response 200
              (StatusBody (written_state (upper p) conf obj t_stamp t_update)
                          true AUTO_RESET_SECONDS))
  /\ (formats_2f conf = true ->
      stdout_refuses (LogUpdate (upper p) conf obj) = None ->
      fst (update_detection upper stdout_refuses t_stamp t_update (Val (JObj items)) w)
      = Val (mk_response 200
               (DetectionBody "Detection data updated"
                  (written_state (upper p) conf obj t_stamp t_update)))
      /\ fst (update_detection_threaded upper stdout_refuses before_print before_reply
                t_stamp t_update (Val (JObj items)) w)
         = Val (mk_response 200
                  (DetectionBody "Detection data updated"
                     (store
                        (before_reply
                           {| store :=
                                store (before_print
                                         {| store := written_state (upper p) conf obj
                                                       t_stamp t_update;
                                            stdout := stdout w |});
                              stdout :=
                                stdout (before_print
                                          {| store := written_state (upper p) conf obj
                                                        t_stamp t_update;
                                             stdout := stdout w |})
                                ++ [LogUpdate (upper p) conf obj] |}))))
      /\ ((forall x, store (before_print x) = store x) ->
          (forall x, store (before_reply x) = store x) ->
          fst (update_detection_threaded upper stdout_refuses before_print before_reply
                 t_stamp t_update (Val (JObj items)) w)
          = Val (mk_response 200
                   (DetectionBody "Detection data updated"
                      (written_state (upper p) conf obj t_stamp t_update)))))
  /\ (formats_2f conf = true ->
      forall text,
        stdout_refuses (LogUpdate (upper p) conf obj) = Some text ->
        fst (update_detection_threaded upper stdout_refuses before_print before_reply
               t_stamp t_update (Val (JObj items)) w)
        = Val (mk_response 500 (ErrorBody text))).
Proof.
  intros Hp Hc Ho Hok.
  pose proof (lookup_nonempty _ _ _ Hp) as Htruthy.
  pose proof (item_or_found _ (JStr "STOP") _ _ Hp) as Hitem.
  pose proof (update_detection_written upper stdout_refuses t_stamp t_update items p w
                Htruthy Hitem Hok) as Hstore.
  pose proof (update_detection_threaded_valid upper stdout_refuses
                before_print before_reply t_stamp t_update items p w
                Htruthy Hitem Hok) as Hthreaded.
  pose proof (update_detection_valid upper stdout_refuses t_stamp t_update items p w
                Htruthy Hitem Hok) as Halone.
  cbv zeta in Hthreaded, Halone.
  rewrite (item_or_found _ (JFloat 0%float) _ _ Hc) in Hstore, Hthreaded, Halone.
  rewrite (item_or_found _ (JBool false) _ _ Ho) in Hstore, Hthreaded, Halone.
  split; [exact Hstore|].
  split; [unfold get_position; returns; simpl; rewrite Hstore; reflexivity|].
  split; [unfold get_status; returns; simpl; rewrite Hstore; reflexivity|].
  split.
  - intros Hf Hout. split; [|split].
    + destruct Halone as [(_ & _ & Hrun)|[(_ & text & Hno & _)|(Hno & _)]];
        [rewrite Hrun; reflexivity|congruence|congruence].
    + destruct Hthreaded as [(_ & _ & Hrun)|[(_ & text & Hno & _)|(Hno & _)]];
        [rewrite Hrun; reflexivity|congruence|congruence].
    + intros Hquiet Hquiet'.
      destruct Hthreaded as [(_ & _ & Hrun)|[(_ & text & Hno & _)|(Hno & _)]];
        [|congruence|congruence].
      rewrite Hrun. simpl. rewrite Hquiet'. simpl. rewrite Hquiet. reflexivity.
  - intros Hf text Hout.
    destruct Hthreaded as [(_ & Hno & _)|[(_ & text' & Hout' & Hrun)|(Hno & _)]];
      [congruence| |congruence].
    rewrite Hrun. simpl. congruence.
Qed.

(** C5: a position string whose upper-cased form is none of LEFT,
    RIGHT, CENTER, STOP makes both POST /api/detection and POST
    /api/manual answer 400 with the message that lists the valid values,
    and leaves the store (and the output) exactly as it was. *)
Theorem invalid_position_is_rejected (t_stamp t_update : datetime)
  (items : list (string * json)) (p : string) (w : world) :
  lookup "position" items = Some (JStr p) ->
  position_in (upper p) valid_positions = false ->
  update_detection upper stdout_refuses t_stamp t_update (Val (JObj items)) w
  = (Val (mk_response 400 (ErrorBody invalid_position_message)), w)
  /\ manual_control upper t_stamp t_update (Val (JObj items)) w
     = (Val (mk_response 400 (ErrorBody invalid_position_message)), w)
  /\ invalid_position_message
     = "Invalid position. Must be one of: ['LEFT', 'RIGHT', 'CENTER', 'STOP']".
Proof.
  intros Hp Hbad. split; [|split].
  - apply (update_detection_invalid upper stdout_refuses _ _ _ p).
    + exact (lookup_nonempty _ _ _ Hp).
    + exact (item_or_found _ _ _ _ Hp).
    + exact Hbad.
  - apply (manual_control_invalid upper _ _ _ p).
    + exact (item_or_found _ _ _ _ Hp).
    + exact Hbad.
  - reflexivity.
Qed.

(** C9: for every position string P with a valid upper-cased form,
    POST /api/manual sets position to the upper-cased P, object_detected
    to whether that position differs from STOP, timestamp and last_update
    to the clock readings of the call, and leaves confidence as it was. *)
Theorem manual_write_sets_position (t_stamp t_update : datetime)
  (items : list (string * json)) (p : string) (w : world) :
  lookup "position" items = Some (JStr p) ->
  position_in (upper p) valid_positions = true ->
  manual_control upper t_stamp t_update (Val (JObj items)) w
  = (Val (mk_response 200 (ManualBody ("Motors set to " ++ upper p))),
     {| store := {| position := upper p;
                    timestamp := isoformat t_stamp;
                    confidence := confidence (store w);
                    object_detected := JBool (negb (upper p =? "STOP")%string);
                    last_update := Some t_update |};
        stdout := stdout w ++ [LogManual (upper p)] |}).
Proof.
  intros Hp Hok.
  rewrite (manual_control_valid upper _ _ _ p);
    [reflexivity|exact (item_or_found _ _ _ _ Hp)|exact Hok].
Qed.

(** C7 (amended): when the JSON body cannot be parsed, so that
    get_json raises, both POST handlers answer 500 with the text of the
    exception and leave the store as it was; when the body is missing in
    the sense that it parses to null, POST /api/detection answers 400
    with the message No data provided, which lists no valid value.
    Only an invalid position is answered with the 400 message that
    lists the valid values: whenever a handler gives that answer, the
    body is a dict whose position, sent as a string or absent and then
    STOP by default, has an upper-cased form outside the four values. *)
Theorem unparsable_body_is_answered_500 (t_stamp t_update : datetime) (e : exn) (w : world) :
  fst (update_detection upper stdout_refuses t_stamp t_update (Exc e) w)
  = Val (mk_response 500 (ErrorBody (str_exn e)))
  /\ store (snd (update_detection upper stdout_refuses t_stamp t_update (Exc e) w)) = store w
  /\ manual_control upper t_stamp t_update (Exc e) w
     = (Val (mk_response 500 (ErrorBody (str_exn e))), w)
  /\ update_detection upper stdout_refuses t_stamp t_update (Val JNull) w
     = (Val (mk_response 400 (ErrorBody "No data provided")), w)
  /\ "No data provided" <> invalid_position_message
  /\ (forall req,
        fst (update_detection upper stdout_refuses t_stamp t_update req w)
        = Val (mk_response 400 (ErrorBody invalid_position_message)) ->
        exists items p,
          req = Val (JObj items)
          /\ (lookup "position" items = Some (JStr p)
              \/ (lookup "position" items = None /\ p = "STOP"))
          /\ position_in (upper p) valid_positions = false)
  /\ (forall req,
        fst (manual_control upper t_stamp t_update req w)
        = Val (mk_response 400 (ErrorBody invalid_position_message)) ->
        exists items p,
          req = Val (JObj items)
          /\ (lookup "position" items = Some (JStr p)
              \/ (lookup "position" items = None /\ p = "STOP"))
          /\ position_in (upper p) valid_positions = false).
Proof.
  do 4 (split; [reflexivity|]).
  split; [exact no_data_is_not_the_list|].
  split.
  - intros [data|e'] H400; [|rewrite update_detection_raised in H400; discriminate].
    destruct (truthy data) eqn:Htruthy.
    2:{ rewrite update_detection_no_data in H400 by exact Htruthy.
        simpl in H400. exfalso. apply no_data_is_not_the_list.
        assert (Hbody : ErrorBody "No data provided" = ErrorBody invalid_position_message)
          by exact (f_equal (fun o => match o with
                                      | Val r => payload r
                                      | Exc _ => ErrorBody ""
                                      end) H400).
        exact (f_equal (fun b => match b with
                                 | ErrorBody msg => msg
                                 | _ => ""
                                 end) Hbody). }
    destruct (json_obj_dec data) as [[items ->]|Hnodict];
      [|rewrite update_detection_not_dict in H400 by assumption; discriminate].
    destruct (json_str_dec (item_or "position" (JStr "STOP") items)) as [[p Hp]|Hnostr];
      [|rewrite update_detection_position_not_str in H400 by assumption; discriminate].
    destruct (position_in (upper p) valid_positions) eqn:Hok.
    + destruct (update_detection_valid upper stdout_refuses t_stamp t_update items p w
                  Htruthy Hp Hok)
        as [(_ & _ & Hrun)|[(_ & text & _ & Hrun)|(_ & e' & Hrun)]];
        rewrite Hrun in H400; discriminate.
    + exists items, p. split; [reflexivity|].
      split; [exact (item_or_position _ _ Hp)|exact Hok].
  - intros [data|e'] H400; [|rewrite manual_control_raised in H400; discriminate].
    destruct (json_obj_dec data) as [[items ->]|Hnodict];
      [|rewrite manual_control_not_dict in H400 by assumption; discriminate].
    destruct (json_str_dec (item_or "position" (JStr "STOP") items)) as [[p Hp]|Hnostr];
      [|rewrite manual_control_position_not_str in H400 by assumption; discriminate].
    destruct (position_in (upper p) valid_positions) eqn:Hok.
    + rewrite (manual_control_valid upper _ _ _ p) in H400 by assumption. discriminate.
    + exists items, p. split; [reflexivity|].
      split; [exact (item_or_position _ _ Hp)|exact Hok].
Qed.

(** C10: a POST /api/detection whose body parses to the empty object,
    or to any other value that Python takes for false, is answered 400
    with the message No data provided and changes nothing.  The
    defaults are applied to the keys that are absent from a body that
    is not empty: when the position (sent, or STOP by default) is valid,
    the record written holds confidence 0.0 if the key confidence is
    absent and object_detected false if the key object_detected is
    absent, and holds the value sent if the key is there; a body
    without a key behaves exactly as the same body with the key sent at
    its default. *)
Theorem empty_body_is_no_data (t_stamp t_update : datetime) (w : world) :
  (forall data, truthy data = false ->
     update_detection upper stdout_refuses t_stamp t_update (Val data) w
     = (Val (mk_response 400 (ErrorBody "No data provided")), w))
  /\ truthy (JObj []) = false
  /\ (forall items,
        truthy (JObj items) = true ->
        (lookup "position" items = None ->
         update_detection upper stdout_refuses t_stamp t_update (Val (JObj items)) w
         = update_detection upper stdout_refuses t_stamp t_update
             (Val (JObj (items ++ [("position", JStr "STOP")]))) w)
        /\ (lookup "confidence" items = None ->
            update_detection upper stdout_refuses t_stamp t_update (Val (JObj items)) w
            = update_detection upper stdout_refuses t_stamp t_update
                (Val (JObj (items ++ [("confidence", JFloat 0%float)]))) w)
        /\ (lookup "object_detected" items = None ->
            update_detection upper stdout_refuses t_stamp t_update (Val (JObj items)) w
            = update_detection upper stdout_refuses t_stamp t_update
                (Val (JObj (items ++ [("object_detected", JBool false)]))) w))
  /\ (forall items p,
        truthy (JObj items) = true ->
        (lookup "position" items = Some (JStr p)
         \/ (lookup "position" items = None /\ p = "STOP")) ->
        position_in (upper p) valid_positions = true ->
        position (store (snd (update_detection upper stdout_refuses t_stamp t_update
                                (Val (JObj items)) w)))
        = upper p
        /\ (lookup "confidence" items = None ->
            confidence (store (snd (update_detection upper stdout_refuses t_stamp t_update
                                      (Val (JObj items)) w)))
            = JFloat 0%float)
        /\ (forall c, lookup "confidence" items = Some c ->
            confidence (store (snd (update_detection upper stdout_refuses t_stamp t_update
                                      (Val (JObj items)) w)))
            = c)
        /\ (lookup "object_detected" items = None ->
            object_detected (store (snd (update_detection upper stdout_refuses
                                           t_stamp t_update (Val (JObj items)) w)))
            = JBool false)
        /\ (forall o, lookup "object_detected" items = Some o ->
            object_detected (store (snd (update_detection upper stdout_refuses
                                           t_stamp t_update (Val (JObj items)) w)))
            = o)).
Proof.
  split; [|split; [|split]].
  - intros data Hfalsy. apply update_detection_no_data. exact Hfalsy.
  - reflexivity.
  - intros items Htruthy.
    split; [|split]; intros _; symmetry; apply update_detection_ext;
      try (rewrite Htruthy; apply truthy_snoc; exact Htruthy);
      try apply item_or_snoc_same;
      try (apply item_or_snoc_other; discriminate).
  - intros items p Htruthy Hp Hok.
    rewrite (update_detection_written upper stdout_refuses t_stamp t_update items p w
               Htruthy (position_item_or _ _ Hp) Hok).
    cbn [written_state position confidence object_detected]. unfold item_or.
    split; [reflexivity|].
    split; [intros ->; reflexivity|].
    split; [intros c ->; reflexivity|].
    split; [intros ->; reflexivity|intros o ->; reflexivity].
Qed.

End WriteClaims.

(** ** Executions: the invariant and the watchdog over time *)

Section ExecutionClaims.

Variable upper : string -> string.
Variable stdout_refuses : log_line -> option string.

Lemma run_cons (ev : event) (evs : list event) (w : world) :
  run upper stdout_refuses (ev :: evs) w = run upper stdout_refuses evs (perform upper stdout_refuses ev w).
Proof. reflexivity. Qed.

Lemma perform_keeps_valid (ev : event) (w : world) :
  In (position (store w)) valid_positions ->
  In (position (store (perform upper stdout_refuses ev w))) valid_positions.
Proof.
  intros Hvalid. destruct ev as [t1 t2 req|t1 t2 req|t1 t2| |]; simpl perform.
  - destruct (update_detection_store upper stdout_refuses t1 t2 req w) as [->|(pos & conf & obj & Hok & ->)].
    + exact Hvalid.
    + apply position_in_valid. exact Hok.
  - destruct (manual_control_store upper t1 t2 req w) as [->|(pos & Hok & ->)].
    + exact Hvalid.
    + apply position_in_valid. exact Hok.
  - destruct (stale_and_active_dec t1 (store w)) as [(lu & Hlu & Hgt & Hpos)|Hidle].
    + rewrite (tick_fires _ t2 _ _ Hlu Hgt Hpos). simpl. tauto.
    + rewrite (tick_idle _ t2 _ Hidle). exact Hvalid.
  - exact Hvalid.
  - exact Hvalid.
Qed.

Lemma run_keeps_valid (evs : list event) (w : world) :
  In (position (store w)) valid_positions ->
  In (position (store (run upper stdout_refuses evs w))) valid_positions.
Proof.
  revert w. induction evs as [|ev evs IH]; intros w Hvalid.
  - exact Hvalid.
  - rewrite run_cons. apply IH, perform_keeps_valid, Hvalid.
Qed.

(** C6: in every reachable state, that is after the module has been
    loaded and after any sequence of POST /api/detection, POST
    /api/manual, watchdog passes and reads, with any request and any
    clock, the position held is one of LEFT, RIGHT, CENTER, STOP. *)
Theorem position_always_valid (t0 : datetime) (evs : list event) :
  In (position (store (run upper stdout_refuses evs (boot t0)))) valid_positions.
Proof.
  apply run_keeps_valid. simpl. tauto.
Qed.

Lemma perform_idle_at_stop (ev : event) (w : world) :
  external_write ev = false ->
  position (store w) = "STOP" ->
  perform upper stdout_refuses ev w = w.
Proof.
  intros Hquiet Hstop. destruct ev as [t1 t2 req|t1 t2 req|t1 t2| |];
    try discriminate; simpl perform.
  - rewrite (tick_idle_at_stop _ _ _ Hstop). reflexivity.
  - reflexivity.
  - reflexivity.
Qed.

Lemma run_idle_at_stop (evs : list event) (w : world) :
  forallb (fun ev => negb (external_write ev)) evs = true ->
  position (store w) = "STOP" ->
  run upper stdout_refuses evs w = w.
Proof.
  intros Hquiet Hstop. induction evs as [|ev evs IH].
  - reflexivity.
  - simpl in Hquiet. apply andb_prop in Hquiet as [Hev Hrest].
    apply negb_true_iff in Hev.
    rewrite run_cons, (perform_idle_at_stop _ _ Hev Hstop). exact (IH Hrest).
Qed.

(** C8: once a watchdog pass has reset the state to STOP, every
    execution without an external write that follows leaves the world
    as that pass left it: no later pass resets again (no store change,
    no further AUTO-RESET line), although last_update is still set and
    lies more than AUTO_RESET_SECONDS before every instant from the
    resetting pass on. *)
Theorem no_second_reset_without_write (t_check t_stamp : datetime) (w : world)
  (evs : list event) :
  snd (auto_reset_tick t_check t_stamp w) <> w ->
  forallb (fun ev => negb (external_write ev)) evs = true ->
  run upper stdout_refuses evs (snd (auto_reset_tick t_check t_stamp w))
  = snd (auto_reset_tick t_check t_stamp w)
  /\ position (store (snd (auto_reset_tick t_check t_stamp w))) = "STOP"
  /\ exists lu,
       last_update (store (snd (auto_reset_tick t_check t_stamp w))) = Some lu
       /\ forall t, t_check <= t -> t - lu > AUTO_RESET_SECONDS.
Proof.
  intros Hreset Hquiet.
  destruct (stale_and_active_dec t_check (store w)) as [(lu & Hlu & Hgt & Hpos)|Hidle].
  - rewrite (tick_fires _ t_stamp _ _ Hlu Hgt Hpos). simpl snd.
    split; [|split].
    + apply run_idle_at_stop; [exact Hquiet|reflexivity].
    + reflexivity.
    + exists lu. split; [exact Hlu|]. intros t Hle. lia.
  - rewrite (tick_idle _ t_stamp _ Hidle) in Hreset. simpl in Hreset. contradiction.
Qed.

End ExecutionClaims.

(** ** Staleness *)

(** In a paced schedule that starts no later than [deadline] and still
    runs after [r], a pass falls between the two as soon as [r] is at
    least one longest gap after [deadline]. *)
Lemma paced_pass_between (gap deadline r : Z) (passes : list (datetime * datetime))
  (prev : datetime) :
  paced gap prev passes = true ->
  prev <= deadline ->
  deadline + gap <= r ->
  (exists q, In q passes /\ r < fst q) ->
  exists q, In q passes /\ deadline < fst q /\ fst q <= r.
Proof.
  revert prev. induction passes as [|[t_check t_stamp] rest IH];
    intros prev Hpaced Hprev Hr (q & Hin & Hafter).
  - destruct Hin.
  - simpl in Hpaced.
    apply andb_prop in Hpaced as [Hnow Hrest].
    apply andb_prop in Hnow as [Hlo Hhi].
    apply Z.leb_le in Hlo, Hhi.
    destruct (Z_le_gt_dec t_check deadline) as [Hearly|Hlate].
    + destruct Hin as [<-|Hin]; [simpl in Hafter; lia|].
      destruct (IH t_check Hrest Hearly Hr (ex_intro _ q (conj Hin Hafter)))
        as (q' & Hin' & Hq').
      exists q'. split; [right; exact Hin'|exact Hq'].
    + exists (t_check, t_stamp). simpl. split; [left; reflexivity|lia].
Qed.

Lemma in_passes_until (r : datetime) (passes : list (datetime * datetime))
  (q : datetime * datetime) :
  In q (passes_until r passes) <-> In q passes /\ fst q <= r.
Proof.
  unfold passes_until. rewrite filter_In, Z.leb_le. reflexivity.
Qed.

Section StalenessClaims.

Variable upper : string -> string.
Variable stdout_refuses : log_line -> option string.

(** C2 (amended): after a write with position LEFT whose last_update
    reading is T and with no further external write, let the passes of
    the watchdog follow one another (and the last pass before the write)
    by at most [gap], the loop still being alive after the read.  Then
    any read at T + AUTO_RESET_SECONDS + eps with eps at least [gap]
    returns position STOP and object_detected false. *)
Theorem stale_left_reads_stop (t_stamp T : datetime) (items : list (string * json))
  (p : string) (w : world) (gap prev eps : Z) (passes : list (datetime * datetime)) :
  lookup "position" items = Some (JStr p) ->
  upper p = "LEFT" ->
  prev <= T ->
  paced gap prev passes = true ->
  (exists q, In q passes /\ T + AUTO_RESET_SECONDS + eps < fst q) ->
  gap <= eps ->
  exists stamp,
    fst (get_position
           (snd (auto_reset_worker
                   (passes_until (T + AUTO_RESET_SECONDS + eps) passes)
                   (snd (update_detection upper stdout_refuses t_stamp T (Val (JObj items)) w)))))
    = Val (mk_response 200 (PositionBody "STOP" stamp (JBool false))).
Proof.
  intros Hp Hleft Hprev Hpaced Halive Hgap.
  assert (Hok : position_in (upper p) valid_positions = true)
    by (rewrite Hleft; reflexivity).
  assert (Hstore : store (snd (update_detection upper stdout_refuses t_stamp T (Val (JObj items)) w))
                   = written_state "LEFT"
                       (item_or "confidence" (JFloat 0%float) items)
                       (item_or "object_detected" (JBool false) items) t_stamp T).
  { destruct (update_detection_valid upper stdout_refuses t_stamp T items p w
                (lookup_nonempty _ _ _ Hp) (item_or_found _ _ _ _ Hp) Hok)
      as [(_ & _ & Hrun)|[(_ & text & _ & Hrun)|(_ & e & Hrun)]]; rewrite Hrun, Hleft; reflexivity. }
  set (w1 := snd (update_detection upper stdout_refuses t_stamp T (Val (JObj items)) w)) in *.
  destruct (paced_pass_between gap (T + AUTO_RESET_SECONDS)
              (T + AUTO_RESET_SECONDS + eps) passes prev Hpaced)
    as (q & Hin & Hlate & Hseen); [unfold AUTO_RESET_SECONDS; lia|lia|exact Halive|].
  destruct (worker_reaches_stop
              (passes_until (T + AUTO_RESET_SECONDS + eps) passes) w1 T)
    as [Hstop Hobj].
  - rewrite Hstore. reflexivity.
  - rewrite Hstore. simpl. discriminate.
  - exists q. split; [apply in_passes_until; split; assumption|lia].
  - exists (timestamp (store (snd (auto_reset_worker
              (passes_until (T + AUTO_RESET_SECONDS + eps) passes) w1)))).
    unfold get_position. returns. simpl. rewrite Hstop, Hobj. reflexivity.
Qed.

End StalenessClaims.

(** * Concrete runs *)

(** The end-to-end scenario: a write of [left] is read back as LEFT
    within the two seconds, and as STOP after a pass of the watchdog
    2.5 s after the write. *)
Example write_left_then_read :
  fst (get_position after_left_write)
  = Val (mk_response 200 (PositionBody "LEFT" (isoformat 1000000) (JBool true))).
Proof. reflexivity. Qed.

Example write_left_then_idle_pass :
  auto_reset_tick 3000000 3000000 after_left_write = (Val tt, after_left_write).
Proof. reflexivity. Qed.

Example write_left_then_late_pass :
  fst (get_position (snd (auto_reset_tick 3500000 3500001 after_left_write)))
  = Val (mk_response 200 (PositionBody "STOP" (isoformat 3500001) (JBool false))).
Proof. reflexivity. Qed.

Example manual_bogus_is_400 :
  fst (manual_control ascii_upper 5 5 (Val (JObj [("position", JStr "bogus")])) (boot 0))
  = Val (mk_response 400
           (ErrorBody "Invalid position. Must be one of: ['LEFT', 'RIGHT', 'CENTER', 'STOP']")).
Proof. reflexivity. Qed.

(** The record is written under the lock, and then the [UPDATE] line
    cannot be printed: the answer is 500 with the encoding error. *)
Example write_with_lone_surrogate_is_answered_500 :
  update_detection ascii_upper strict_utf8_stdout 7 8
    (Val (JObj [("position", JStr "left"); ("confidence", JFloat 0.5%float);
                ("object_detected", JStr lone_surrogate)]))
    (boot 0)
  = (Val (mk_response 500
            (ErrorBody "'utf-8' codec can't encode character '\ud800' in position 51: surrogates not allowed")),
     {| store := written_state "LEFT" (JFloat 0.5%float) (JStr lone_surrogate) 7 8;
        stdout := [LogError "'utf-8' codec can't encode character '\ud800' in position 51: surrogates not allowed"] |}).
Proof. reflexivity. Qed.

(** A body [null] has no [get]: POST /api/manual, which does not test
    the body first, ends in its exception handler. *)
Example manual_null_is_500 :
  manual_control ascii_upper 5 5 (Val JNull) (boot 0)
  = (Val (mk_response 500 (ErrorBody "'NoneType' object has no attribute 'get'")), boot 0).
Proof. reflexivity. Qed.

Lemma tick_resets_iff_stale_and_active_witness :
  stale_and_active 2500000 (store stale_world)
  /\ store (snd (auto_reset_tick 2500000 2500001 stale_world))
     = reset_state 2500001 (store stale_world).
Proof.
  assert (H : stale_and_active 2500000 (store stale_world)).
  { exists 0. split; [reflexivity|]. split; [reflexivity|discriminate]. }
  split; [exact H|].
  exact (proj1 (proj1 (proj2 (tick_resets_iff_stale_and_active 2500000 2500001 stale_world)) H)).
Defined.

(** C2, as stated, fails: the write of LEFT has last_update 0; the
    passes follow one another by 500 ms, the last one by 500 ms and 2
    microseconds; the pass at 2.0 s sees an elapsed time that does not
    exceed AUTO_RESET_SECONDS, and the read at 2.0 s + eps with eps =
    500.001 ms, more than one polling interval, comes before the next
    pass and still returns LEFT with object_detected true. *)
Lemma stale_left_still_read_after_polling_interval :
  paced (POLL_INTERVAL + 2) 0 late_schedule = true
  /\ (exists q, In q late_schedule /\ 0 + AUTO_RESET_SECONDS + 500001 < fst q)
  /\ POLL_INTERVAL < 500001
  /\ fst (get_position
            (snd (auto_reset_worker
                    (passes_until (0 + AUTO_RESET_SECONDS + 500001) late_schedule)
                    (snd (update_detection ascii_upper tolerant_stdout 0 0
                            (Val (JObj [("position", JStr "LEFT");
                                        ("confidence", JFloat 0.875%float);
                                        ("object_detected", JBool true)]))
                            (boot (-1000000)))))))
     = Val (mk_response 200 (PositionBody "LEFT" (isoformat 0) (JBool true))).
Proof.
  split; [reflexivity|]. split.
  - exists (2500002, 2500002). split; [simpl; auto 10|reflexivity].
  - split; reflexivity.
Qed.

Lemma stale_left_reads_stop_witness :
  exists stamp,
    fst (get_position
           (snd (auto_reset_worker
                   (passes_until (0 + AUTO_RESET_SECONDS + 500000) even_schedule)
                   (snd (update_detection ascii_upper tolerant_stdout 0 0 (Val (JObj left_body))
                           (boot (-1000000)))))))
    = Val (mk_response 200 (PositionBody "STOP" stamp (JBool false))).
Proof.
  apply (stale_left_reads_stop ascii_upper tolerant_stdout 0 0 left_body "left" (boot (-1000000))
           500000 0 500000 even_schedule).
  - reflexivity.
  - reflexivity.
  - lia.
  - reflexivity.
  - exists (3000000, 3000000). split; [simpl; auto 10|reflexivity].
  - lia.
Defined.

(** C4, as stated, fails: with a valid position and a confidence that
    is a string, the record is replaced but the log line of the handler
    cannot format the confidence, and the answer is 500 with the text of
    the exception instead of the updated snapshot. *)
Lemma write_with_text_confidence_is_answered_500 :
  position_in (ascii_upper "left") valid_positions = true
  /\ update_detection ascii_upper tolerant_stdout 7 8
       (Val (JObj [("position", JStr "left"); ("confidence", JStr "high");
                   ("object_detected", JBool true)]))
       (boot 0)
     = (Val (mk_response 500
               (ErrorBody "Unknown format code 'f' for object of type 'str'")),
        {| store := written_state "LEFT" (JStr "high") (JBool true) 7 8;
           stdout := [LogError "Unknown format code 'f' for object of type 'str'"] |}).
Proof. split; reflexivity. Qed.

Lemma write_replaces_record_witness :
  store (snd (update_detection ascii_upper tolerant_stdout 7 8 (Val (JObj left_body)) (boot 0)))
  = written_state "LEFT" (JFloat 0.875%float) (JBool true) 7 8
  /\ fst (update_detection ascii_upper tolerant_stdout 7 8 (Val (JObj left_body)) (boot 0))
     = Val (mk_response 200
              (DetectionBody "Detection data updated"
                 (written_state "LEFT" (JFloat 0.875%float) (JBool true) 7 8)))
  /\ fst (update_detection_threaded ascii_upper tolerant_stdout
            (fun w => w)
            (perform ascii_upper tolerant_stdout
               (Manual 9 10 (Val (JObj [("position", JStr "right")]))))
            7 8 (Val (JObj left_body)) (boot 0))
     = Val (mk_response 200
              (DetectionBody "Detection data updated"
                 {| position := "RIGHT"; timestamp := isoformat 9;
                    confidence := JFloat 0.875%float; object_detected := JBool true;
                    last_update := Some 10 |})).
Proof.
  pose proof (write_replaces_record ascii_upper tolerant_stdout 7 8 left_body "left"
                (JFloat 0.875%float) (JBool true) (boot 0)
                (fun w => w)
                (perform ascii_upper tolerant_stdout
                   (Manual 9 10 (Val (JObj [("position", JStr "right")]))))
                eq_refl eq_refl eq_refl eq_refl) as (Hstore & _ & _ & Hresp & _).
  destruct (Hresp eq_refl eq_refl) as (Halone & Hthreaded & _).
  split; [exact Hstore|]. split; [exact Halone|exact Hthreaded].
Defined.

Lemma invalid_position_is_rejected_witness :
  update_detection ascii_upper tolerant_stdout 7 8 (Val (JObj [("position", JStr "bogus")])) stale_world
  = (Val (mk_response 400 (ErrorBody invalid_position_message)), stale_world)
  /\ manual_control ascii_upper 7 8 (Val (JObj [("position", JStr "bogus")])) stale_world
     = (Val (mk_response 400 (ErrorBody invalid_position_message)), stale_world).
Proof.
  pose proof (invalid_position_is_rejected ascii_upper tolerant_stdout 7 8
                [("position", JStr "bogus")] "bogus" stale_world eq_refl eq_refl)
    as (Hw & Hm & _).
  split; [exact Hw|exact Hm].
Defined.

Lemma manual_write_sets_position_witness :
  store (snd (manual_control ascii_upper 7 8 (Val (JObj [("position", JStr "stop")]))
                stale_world))
  = {| position := "STOP"; timestamp := isoformat 7;
       confidence := JFloat 0.875%float; object_detected := JBool false;
       last_update := Some 8 |}.
Proof.
  rewrite (manual_write_sets_position ascii_upper 7 8 [("position", JStr "stop")]
             "stop" stale_world eq_refl eq_refl).
  reflexivity.
Defined.

(** C7, as stated, fails: when get_json raises on a body that is not
    JSON, both handlers answer 500 with the text of the exception, not
    400 with the list of valid values. *)
Lemma unparsable_body_is_not_answered_400 :
  fst (update_detection ascii_upper tolerant_stdout 7 8
         (Exc (HTTPException "400 Bad Request: Failed to decode JSON object"))
         (boot 0))
  = Val (mk_response 500 (ErrorBody "400 Bad Request: Failed to decode JSON object"))
  /\ fst (manual_control ascii_upper 7 8
            (Exc (HTTPException "400 Bad Request: Failed to decode JSON object"))
            (boot 0))
     = Val (mk_response 500 (ErrorBody "400 Bad Request: Failed to decode JSON object")).
Proof. split; reflexivity. Qed.

Lemma unparsable_body_is_answered_500_witness :
  fst (update_detection ascii_upper tolerant_stdout 7 8
         (Val (JObj [("position", JStr "bogus")])) (boot 0))
  = Val (mk_response 400 (ErrorBody invalid_position_message))
  /\ exists items p,
       Val (JObj [("position", JStr "bogus")]) = Val (JObj items)
       /\ (lookup "position" items = Some (JStr p)
           \/ (lookup "position" items = None /\ p = "STOP"))
       /\ position_in (ascii_upper p) valid_positions = false.
Proof.
  assert (H : fst (update_detection ascii_upper tolerant_stdout 7 8
                     (Val (JObj [("position", JStr "bogus")])) (boot 0))
              = Val (mk_response 400 (ErrorBody invalid_position_message)))
    by reflexivity.
  split; [exact H|].
  pose proof (unparsable_body_is_answered_500 ascii_upper tolerant_stdout 7 8
                (HTTPException "400 Bad Request") (boot 0))
    as (_ & _ & _ & _ & _ & Honly & _).
  exact (Honly (Val (JObj [("position", JStr "bogus")])) H).
Defined.

Lemma no_second_reset_without_write_witness :
  snd (auto_reset_tick 2500000 2500001 stale_world) <> stale_world
  /\ run ascii_upper tolerant_stdout [Tick 3000000 3000001; ReadPosition; Tick 3500000 3500001]
       (snd (auto_reset_tick 2500000 2500001 stale_world))
     = snd (auto_reset_tick 2500000 2500001 stale_world).
Proof.
  assert (H : snd (auto_reset_tick 2500000 2500001 stale_world) <> stale_world)
    by (simpl; discriminate).
  split; [exact H|].
  exact (proj1 (no_second_reset_without_write ascii_upper tolerant_stdout 2500000 2500001 stale_world
                  [Tick 3000000 3000001; ReadPosition; Tick 3500000 3500001]
                  H eq_refl)).
Defined.

(** The empty object is turned away although the defaults of its three
    absent keys would make a valid update; a body with the position
    alone overwrites the confidence and the object_detected of the
    record with the defaults. *)
Lemma empty_body_is_no_data_witness :
  update_detection ascii_upper tolerant_stdout 7 8 (Val (JObj [])) stale_world
  = (Val (mk_response 400 (ErrorBody "No data provided")), stale_world)
  /\ update_detection ascii_upper tolerant_stdout 7 8 (Val (JObj [("note", JNull)])) stale_world
     = update_detection ascii_upper tolerant_stdout 7 8
         (Val (JObj [("note", JNull); ("position", JStr "STOP")])) stale_world
  /\ confidence (store stale_world) = JFloat 0.875%float
  /\ confidence (store (snd (update_detection ascii_upper tolerant_stdout 7 8
                               (Val (JObj [("position", JStr "right")])) stale_world)))
     = JFloat 0%float
  /\ object_detected (store (snd (update_detection ascii_upper tolerant_stdout 7 8
                                    (Val (JObj [("position", JStr "right")])) stale_world)))
     = JBool false.
Proof.
  pose proof (empty_body_is_no_data ascii_upper tolerant_stdout 7 8 stale_world)
    as (Hno & _ & Hdef & Hstored).
  destruct (Hstored [("position", JStr "right")] "right" eq_refl
              (or_introl eq_refl) eq_refl) as (_ & Hconf & _ & Hobj & _).
  split; [exact (Hno (JObj []) eq_refl)|].
  split; [exact (proj1 (Hdef [("note", JNull)] eq_refl) eq_refl)|].
  split; [reflexivity|].
  split; [exact (Hconf eq_refl)|exact (Hobj eq_refl)].
Defined.

(** * Further properties of the handlers and of the watchdog *)

Section HandlerOutcomes.

Variable upper : string -> string.
Variable stdout_refuses : log_line -> option string.

(** The four ways [POST /api/detection] can end: turned away with 400
    or failed with 500 before any assignment, both leaving the store;
    written and answered 200; written and failed with 500 on the log
    line. *)
Lemma update_detection_cases (t_stamp t_update : datetime) (req : request) (w : world) :
  (exists msg,
     update_detection upper stdout_refuses t_stamp t_update req w
     = (Val (mk_response 400 (ErrorBody msg)), w))
  \/ (exists e,
        update_detection upper stdout_refuses t_stamp t_update req w
        = (Val (mk_response 500 (ErrorBody (str_exn e))),
           {| store := store w; stdout := stdout w ++ [LogError (str_exn e)] |}))
  \/ (exists pos conf obj,
        position_in pos valid_positions = true
        /\ update_detection upper stdout_refuses t_stamp t_update req w
           = (Val (mk_response 200
                     (DetectionBody "Detection data updated"
                        (written_state pos conf obj t_stamp t_update))),
              {| store := written_state pos conf obj t_stamp t_update;
                 stdout := stdout w ++ [LogUpdate pos conf obj] |}))
  \/ (exists pos conf obj e,
        position_in pos valid_positions = true
        /\ update_detection upper stdout_refuses t_stamp t_update req w
           = (Val (mk_response 500 (ErrorBody (str_exn e))),
              {| store := written_state pos conf obj t_stamp t_update;
                 stdout := stdout w ++ [LogError (str_exn e)] |})).
Proof.
  destruct req as [data|e];
    [|right; left; exists e; apply update_detection_raised].
  destruct (truthy data) eqn:Htruthy;
    [|left; eexists; apply update_detection_no_data; exact Htruthy].
  destruct (json_obj_dec data) as [[items ->]|Hnodict];
    [|right; left; eexists; apply update_detection_not_dict; assumption].
  destruct (json_str_dec (item_or "position" (JStr "STOP") items)) as [[p Hp]|Hnostr];
    [|right; left; eexists; apply update_detection_position_not_str; assumption].
  destruct (position_in (upper p) valid_positions) eqn:Hok;
    [|left; eexists; apply (update_detection_invalid upper stdout_refuses _ _ _ p); assumption].
  destruct (update_detection_valid upper stdout_refuses t_stamp t_update items p w Htruthy Hp Hok)
    as [(_ & _ & Hrun)|[(_ & text & _ & Hrun)|(_ & e & Hrun)]].
  - right; right; left. do 3 eexists. split; [exact Hok|exact Hrun].
  - right; right; right. exists (upper p). do 2 eexists.
    exists (UnicodeEncodeError text). split; [exact Hok|exact Hrun].
  - right; right; right. do 4 eexists. split; [exact Hok|exact Hrun].
Qed.

(** The three ways [POST /api/manual] can end. *)
Lemma manual_control_cases (t_stamp t_update : datetime) (req : request) (w : world) :
  manual_control upper t_stamp t_update req w
  = (Val (mk_response 400 (ErrorBody invalid_position_message)), w)
  \/ (exists e,
        manual_control upper t_stamp t_update req w
        = (Val (mk_response 500 (ErrorBody (str_exn e))), w))
  \/ (exists pos,
        position_in pos valid_positions = true
        /\ manual_control upper t_stamp t_update req w
           = (Val (mk_response 200 (ManualBody ("Motors set to " ++ pos))),
              {| store := manual_state pos t_stamp t_update (store w);
                 stdout := stdout w ++ [LogManual pos] |})).
Proof.
  destruct req as [data|e];
    [|right; left; exists e; apply manual_control_raised].
  destruct (json_obj_dec data) as [[items ->]|Hnodict];
    [|right; left; eexists; apply manual_control_not_dict; assumption].
  destruct (json_str_dec (item_or "position" (JStr "STOP") items)) as [[p Hp]|Hnostr];
    [|right; left; eexists; apply manual_control_position_not_str; assumption].
  destruct (position_in (upper p) valid_positions) eqn:Hok;
    [|left; apply (manual_control_invalid upper _ _ _ p); assumption].
  right; right. exists (upper p). split; [exact Hok|].
  apply (manual_control_valid upper _ _ _ p); assumption.
Qed.

(** X1: whatever the request, the two POST handlers return a response
    and never let an exception escape, and the status of the response is
    200, 400 or 500. *)
Theorem post_handlers_always_answer (t_stamp t_update : datetime) (req : request) (w : world) :
  (exists r, fst (update_detection upper stdout_refuses t_stamp t_update req w) = Val r
             /\ In (status_code r) [200; 400; 500])
  /\ (exists r, fst (manual_control upper t_stamp t_update req w) = Val r
                /\ In (status_code r) [200; 400; 500]).
Proof.
  split.
  - destruct (update_detection_cases t_stamp t_update req w)
      as [[msg H]|[[e H]|[(pos & conf & obj & _ & H)|(pos & conf & obj & e & _ & H)]]];
      rewrite H; eexists; (split; [reflexivity|simpl; tauto]).
  - destruct (manual_control_cases t_stamp t_update req w)
      as [H|[[e H]|(pos & _ & H)]];
      rewrite H; eexists; (split; [reflexivity|simpl; tauto]).
Qed.

(** X2: a request that either POST handler answers with 400 has
    changed nothing: the store and the output are as before. *)
Theorem answer_400_changes_nothing (t_stamp t_update : datetime) (req : request)
  (w : world) (b : body) :
  (fst (update_detection upper stdout_refuses t_stamp t_update req w) = Val (mk_response 400 b) ->
   snd (update_detection upper stdout_refuses t_stamp t_update req w) = w)
  /\ (fst (manual_control upper t_stamp t_update req w) = Val (mk_response 400 b) ->
      snd (manual_control upper t_stamp t_update req w) = w).
Proof.
  split.
  - destruct (update_detection_cases t_stamp t_update req w)
      as [[msg H]|[[e H]|[(pos & conf & obj & _ & H)|(pos & conf & obj & e & _ & H)]]];
      rewrite H; simpl; intros Hst; try reflexivity; discriminate.
  - destruct (manual_control_cases t_stamp t_update req w)
      as [H|[[e H]|(pos & _ & H)]];
      rewrite H; simpl; intros Hst; try reflexivity; discriminate.
Qed.

(** X3: POST /api/manual is all or nothing and never writes
    confidence: an answer other than 200 leaves the world as it was, an
    answer 200 names in its message the position now stored, and in
    every case the confidence of the record is unchanged. *)
Theorem manual_control_all_or_nothing (t_stamp t_update : datetime) (req : request)
  (w : world) :
  confidence (store (snd (manual_control upper t_stamp t_update req w)))
  = confidence (store w)
  /\ (forall r, fst (manual_control upper t_stamp t_update req w) = Val r ->
        (status_code r <> 200 ->
         snd (manual_control upper t_stamp t_update req w) = w)
        /\ (status_code r = 200 ->
            payload r
            = ManualBody ("Motors set to "
                ++ position (store (snd (manual_control upper t_stamp t_update req w))))
            /\ In (position (store (snd (manual_control upper t_stamp t_update req w))))
                  valid_positions)).
Proof.
  destruct (manual_control_cases t_stamp t_update req w)
    as [H|[[e H]|(pos & Hok & H)]]; rewrite H; simpl.
  - split; [reflexivity|]. intros r [= <-]. simpl. split; [reflexivity|discriminate].
  - split; [reflexivity|]. intros r [= <-]. simpl. split; [reflexivity|discriminate].
  - split; [reflexivity|]. intros r [= <-]. simpl. split; [intros Hne; contradiction|].
    intros _. split; [reflexivity|]. apply position_in_valid in Hok. exact Hok.
Qed.

(** X5: every assignment to the record refreshes its timestamp: each
    of the three writers either leaves the store as it was or leaves it
    with the timestamp of its own clock reading, and the two POST
    handlers then also leave last_update at theirs. *)
Theorem every_mutation_refreshes_timestamp (t_stamp t_update : datetime) (req : request)
  (w : world) :
  (store (snd (update_detection upper stdout_refuses t_stamp t_update req w)) = store w
   \/ (timestamp (store (snd (update_detection upper stdout_refuses t_stamp t_update req w)))
       = isoformat t_stamp
       /\ last_update (store (snd (update_detection upper stdout_refuses t_stamp t_update req w)))
          = Some t_update))
  /\ (store (snd (manual_control upper t_stamp t_update req w)) = store w
      \/ (timestamp (store (snd (manual_control upper t_stamp t_update req w)))
          = isoformat t_stamp
          /\ last_update (store (snd (manual_control upper t_stamp t_update req w)))
             = Some t_update))
  /\ (store (snd (auto_reset_tick t_update t_stamp w)) = store w
      \/ timestamp (store (snd (auto_reset_tick t_update t_stamp w))) = isoformat t_stamp).
Proof.
  split; [|split].
  - destruct (update_detection_store upper stdout_refuses t_stamp t_update req w)
      as [H|(pos & conf & obj & _ & H)]; [left; exact H|right; rewrite H; split; reflexivity].
  - destruct (manual_control_store upper t_stamp t_update req w)
      as [H|(pos & _ & H)]; [left; exact H|right; rewrite H; split; reflexivity].
  - destruct (stale_and_active_dec t_update (store w)) as [(lu & Hlu & Hgt & Hpos)|Hidle].
    + right. rewrite (tick_fires _ t_stamp _ _ Hlu Hgt Hpos). reflexivity.
    + left. rewrite (tick_idle _ t_stamp _ Hidle). reflexivity.
Qed.

End HandlerOutcomes.

Section EdgeCases.

Variable upper : string -> string.
Variable stdout_refuses : log_line -> option string.

(** X6: a body that is true for Python but is no dict (a list, a
    number, a string, [true]), and a dict whose position is no string,
    make POST /api/detection answer 500 with the text of the
    AttributeError, log it, and leave the store as it was; POST
    /api/manual answers the same 500 for any body that is no dict,
    [null] and the falsy values included, and changes nothing. *)
Theorem wrong_types_are_answered_500 (t_stamp t_update : datetime) (w : world) :
  (forall data,
     truthy data = true -> (forall items, data <> JObj items) ->
     fst (update_detection upper stdout_refuses t_stamp t_update (Val data) w)
     = Val (mk_response 500
              (ErrorBody ("'" ++ type_name data ++ "' object has no attribute 'get'")))
     /\ store (snd (update_detection upper stdout_refuses t_stamp t_update (Val data) w)) = store w)
  /\ (forall items v,
        lookup "position" items = Some v -> (forall p, v <> JStr p) ->
        fst (update_detection upper stdout_refuses t_stamp t_update (Val (JObj items)) w)
        = Val (mk_response 500
                 (ErrorBody ("'" ++ type_name v ++ "' object has no attribute 'upper'")))
        /\ store (snd (update_detection upper stdout_refuses t_stamp t_update (Val (JObj items)) w))
           = store w)
  /\ (forall data,
        (forall items, data <> JObj items) ->
        manual_control upper t_stamp t_update (Val data) w
        = (Val (mk_response 500
                  (ErrorBody ("'" ++ type_name data ++ "' object has no attribute 'get'"))),
           w)).
Proof.
  split; [|split].
  - intros data Htruthy Hnodict.
    rewrite update_detection_not_dict by assumption. split; reflexivity.
  - intros items v Hv Hnostr.
    pose proof (item_or_found _ (JStr "STOP") _ _ Hv) as Hitem.
    rewrite update_detection_position_not_str.
    + rewrite Hitem. split; reflexivity.
    + exact (lookup_nonempty _ _ _ Hv).
    + rewrite Hitem. exact Hnostr.
  - intros data Hnodict. apply manual_control_not_dict. exact Hnodict.
Qed.

(** X7: a dict without the key position, the empty dict included, is
    taken by POST /api/manual as a request for STOP: where upper-casing
    leaves STOP as it is, the handler answers 200, stores position STOP
    with object_detected false and refreshes timestamp and last_update;
    the same empty dict is turned away by POST /api/detection. *)
Theorem manual_without_position_stops (t_stamp t_update : datetime)
  (items : list (string * json)) (w : world) :
  upper "STOP" = "STOP" ->
  lookup "position" items = None ->
  manual_control upper t_stamp t_update (Val (JObj items)) w
  = (Val (mk_response 200 (ManualBody "Motors set to STOP")),
     {| store := {| position := "STOP";
                    timestamp := isoformat t_stamp;
                    confidence := confidence (store w);
                    object_detected := JBool false;
                    last_update := Some t_update |};
        stdout := stdout w ++ [LogManual "STOP"] |})
  /\ update_detection upper stdout_refuses t_stamp t_update (Val (JObj [])) w
     = (Val (mk_response 400 (ErrorBody "No data provided")), w).
Proof.
  intros Hupper Hnone. split.
  - rewrite (manual_control_valid upper _ _ items "STOP").
    + rewrite Hupper. reflexivity.
    + unfold item_or. rewrite Hnone. reflexivity.
    + rewrite Hupper. reflexivity.
  - apply update_detection_no_data. reflexivity.
Qed.

End EdgeCases.

(** ** The watchdog between writes *)

Lemma worker_idle_while_fresh (passes : list (datetime * datetime)) (w : world)
  (lu : datetime) :
  last_update (store w) = Some lu ->
  Forall (fun q => fst q <= lu + AUTO_RESET_SECONDS) passes ->
  auto_reset_worker passes w = (Val tt, w).
Proof.
  intros Hlu Hfresh. induction Hfresh as [|[t_check t_stamp] rest Hq _ IH].
  - reflexivity.
  - rewrite worker_cons, tick_idle; [exact IH|].
    intros (lu' & Hlu' & Hgt & _). rewrite Hlu in Hlu'. injection Hlu' as <-.
    simpl in Hq. lia.
Qed.

Lemma run_app (upper : string -> string) (stdout_refuses : log_line -> option string)
  (evs evs' : list event) (w : world) :
  run upper stdout_refuses (evs ++ evs') w = run upper stdout_refuses evs' (run upper stdout_refuses evs w).
Proof. unfold run. apply fold_left_app. Qed.

Lemma filter_snoc {A : Type} (f : A -> bool) (l : list A) (x : A) :
  filter f (l ++ [x]) = (filter f l ++ if f x then [x] else [])%list.
Proof. rewrite filter_app. reflexivity. Qed.

Section BetweenWrites.

Variable upper : string -> string.
Variable stdout_refuses : log_line -> option string.

(** X8: no premature reset.  After a write whose position is valid
    and whose last_update reading is T, passes of the watchdog whose
    clock does not exceed T + AUTO_RESET_SECONDS (the bound included)
    change nothing, and a read still returns the written position and
    object_detected. *)
Theorem fresh_write_is_not_reset (t_stamp T : datetime) (items : list (string * json))
  (p : string) (w : world) (passes : list (datetime * datetime)) :
  lookup "position" items = Some (JStr p) ->
  position_in (upper p) valid_positions = true ->
  Forall (fun q => fst q <= T + AUTO_RESET_SECONDS) passes ->
  auto_reset_worker passes (snd (update_detection upper stdout_refuses t_stamp T (Val (JObj items)) w))
  = (Val tt, snd (update_detection upper stdout_refuses t_stamp T (Val (JObj items)) w))
  /\ fst (get_position
            (snd (auto_reset_worker passes
                    (snd (update_detection upper stdout_refuses t_stamp T (Val (JObj items)) w)))))
     = Val (mk_response 200
              (PositionBody (upper p) (isoformat t_stamp)
                 (item_or "object_detected" (JBool false) items))).
Proof.
  intros Hp Hok Hfresh.
  assert (Hstore : store (snd (update_detection upper stdout_refuses t_stamp T (Val (JObj items)) w))
                   = written_state (upper p)
                       (item_or "confidence" (JFloat 0%float) items)
                       (item_or "object_detected" (JBool false) items) t_stamp T).
  { destruct (update_detection_valid upper stdout_refuses t_stamp T items p w
                (lookup_nonempty _ _ _ Hp) (item_or_found _ _ _ _ Hp) Hok)
      as [(_ & _ & Hrun)|[(_ & text & _ & Hrun)|(_ & e & Hrun)]]; rewrite Hrun; reflexivity. }
  assert (Hidle : auto_reset_worker passes
                    (snd (update_detection upper stdout_refuses t_stamp T (Val (JObj items)) w))
                  = (Val tt, snd (update_detection upper stdout_refuses t_stamp T (Val (JObj items)) w))).
  { apply (worker_idle_while_fresh _ _ T); [rewrite Hstore; reflexivity|exact Hfresh]. }
  split; [exact Hidle|].
  rewrite Hidle. unfold get_position. returns. simpl. rewrite Hstore. reflexivity.
Qed.

(** X9: the watchdog never clears object_detected once position is
    STOP.  After a write whose position upper-cases to STOP, every
    execution without an external write leaves the world as the write
    left it, so the reads keep returning the object_detected that was
    sent, true included. *)
Theorem stop_write_keeps_object_detected (t_stamp T : datetime)
  (items : list (string * json)) (p : string) (w : world) (evs : list event) :
  lookup "position" items = Some (JStr p) ->
  upper p = "STOP" ->
  forallb (fun ev => negb (external_write ev)) evs = true ->
  run upper stdout_refuses evs (snd (update_detection upper stdout_refuses t_stamp T (Val (JObj items)) w))
  = snd (update_detection upper stdout_refuses t_stamp T (Val (JObj items)) w)
  /\ fst (get_position
            (run upper stdout_refuses evs (snd (update_detection upper stdout_refuses t_stamp T (Val (JObj items)) w))))
     = Val (mk_response 200
              (PositionBody "STOP" (isoformat t_stamp)
                 (item_or "object_detected" (JBool false) items))).
Proof.
  intros Hp Hstop Hquiet.
  assert (Hok : position_in (upper p) valid_positions = true)
    by (rewrite Hstop; reflexivity).
  assert (Hstore : store (snd (update_detection upper stdout_refuses t_stamp T (Val (JObj items)) w))
                   = written_state "STOP"
                       (item_or "confidence" (JFloat 0%float) items)
                       (item_or "object_detected" (JBool false) items) t_stamp T).
  { destruct (update_detection_valid upper stdout_refuses t_stamp T items p w
                (lookup_nonempty _ _ _ Hp) (item_or_found _ _ _ _ Hp) Hok)
      as [(_ & _ & Hrun)|[(_ & text & _ & Hrun)|(_ & e & Hrun)]]; rewrite Hrun, Hstop; reflexivity. }
  assert (Hrun : run upper stdout_refuses evs (snd (update_detection upper stdout_refuses t_stamp T (Val (JObj items)) w))
                 = snd (update_detection upper stdout_refuses t_stamp T (Val (JObj items)) w)).
  { apply run_idle_at_stop; [exact Hquiet|rewrite Hstore; reflexivity]. }
  split; [exact Hrun|].
  rewrite Hrun. unfold get_position. returns. simpl. rewrite Hstore. reflexivity.
Qed.

(** X10: the last writer wins.  Whatever execution came before, a
    POST /api/detection with a valid position leaves a record made of
    the request and of the clock alone: nothing of the earlier record
    survives. *)
Theorem last_write_overwrites_history (t_stamp t_update : datetime)
  (items : list (string * json)) (p : string) (evs : list event) (w : world) :
  lookup "position" items = Some (JStr p) ->
  position_in (upper p) valid_positions = true ->
  store (run upper stdout_refuses (evs ++ [Detection t_stamp t_update (Val (JObj items))]) w)
  = written_state (upper p)
      (item_or "confidence" (JFloat 0%float) items)
      (item_or "object_detected" (JBool false) items) t_stamp t_update.
Proof.
  intros Hp Hok. rewrite run_app. simpl.
  destruct (update_detection_valid upper stdout_refuses t_stamp t_update items p (run upper stdout_refuses evs w)
              (lookup_nonempty _ _ _ Hp) (item_or_found _ _ _ _ Hp) Hok)
    as [(_ & _ & Hrun)|[(_ & text & _ & Hrun)|(_ & e & Hrun)]]; rewrite Hrun; reflexivity.
Qed.

(** X11: reads do not interfere: an execution ends in the same world
    as the execution with its GET requests taken out. *)
Theorem reads_do_not_interfere (evs : list event) (w : world) :
  run upper stdout_refuses evs w = run upper stdout_refuses (filter (fun ev => negb (is_read ev)) evs) w.
Proof.
  revert w. induction evs as [|ev evs IH]; intros w; [reflexivity|].
  destruct ev; simpl filter; rewrite ?run_cons; apply IH.
Qed.

Lemma perform_unset (ev : event) (w : world) :
  last_update (store (perform upper stdout_refuses ev w)) = None ->
  store (perform upper stdout_refuses ev w) = store w.
Proof.
  destruct ev as [t1 t2 req|t1 t2 req|t1 t2| |]; simpl perform; try reflexivity.
  - destruct (update_detection_store upper stdout_refuses t1 t2 req w)
      as [H|(pos & conf & obj & _ & H)]; rewrite H; [reflexivity|discriminate].
  - destruct (manual_control_store upper t1 t2 req w)
      as [H|(pos & _ & H)]; rewrite H; [reflexivity|discriminate].
  - intros Hnone. rewrite (proj1 (tick_frame t1 t2 w)) in Hnone.
    rewrite tick_idle; [reflexivity|].
    intros (lu & Hlu & _). rewrite Hnone in Hlu. discriminate.
Qed.

Lemma run_unset (evs : list event) (w : world) :
  last_update (store (run upper stdout_refuses evs w)) = None ->
  store (run upper stdout_refuses evs w) = store w.
Proof.
  revert w. induction evs as [|ev evs IH]; intros w Hnone; [reflexivity|].
  rewrite run_cons in *.
  pose proof (IH _ Hnone) as Hsame. rewrite Hsame in Hnone |- *.
  apply perform_unset. exact Hnone.
Qed.

(** X12: last_update is unset only as long as nothing has written the
    record, and once set it is never cleared: after any execution, an
    unset last_update means that the store is the one the execution
    started from, and a last_update that was set is still set. *)
Theorem last_update_unset_only_before_first_write (evs : list event) (w : world) :
  (last_update (store (run upper stdout_refuses evs w)) = None ->
   store (run upper stdout_refuses evs w) = store w)
  /\ (forall t, last_update (store w) = Some t ->
        exists t', last_update (store (run upper stdout_refuses evs w)) = Some t').
Proof.
  split; [apply run_unset|].
  intros t Hset.
  destruct (last_update (store (run upper stdout_refuses evs w))) as [t'|] eqn:Hafter;
    [exists t'; reflexivity|].
  pose proof (run_unset _ _ Hafter) as Hsame.
  rewrite Hsame in Hafter. congruence.
Qed.

End BetweenWrites.

(** ** Counting the forced resets *)

Lemma auto_resets_print (w : world) (l : log_line) (st : detection_state) :
  is_auto_reset l = false ->
  auto_resets {| store := st; stdout := stdout w ++ [l] |} = auto_resets w.
Proof.
  intros Hl. unfold auto_resets. simpl. rewrite filter_snoc, Hl, app_nil_r. reflexivity.
Qed.

Lemma moving_le_1 (w : world) : (moving w <= 1)%nat.
Proof. unfold moving. destruct (position (store w) =? "STOP")%string; lia. Qed.

Section ResetCount.

Variable upper : string -> string.
Variable stdout_refuses : log_line -> option string.

Lemma update_detection_auto_resets (t_stamp t_update : datetime) (req : request) (w : world) :
  auto_resets (snd (update_detection upper stdout_refuses t_stamp t_update req w)) = auto_resets w.
Proof.
  destruct (update_detection_cases upper stdout_refuses t_stamp t_update req w)
    as [[msg H]|[[e H]|[(pos & conf & obj & _ & H)|(pos & conf & obj & e & _ & H)]]];
    rewrite H; simpl; try reflexivity; apply auto_resets_print; reflexivity.
Qed.

Lemma manual_control_auto_resets (t_stamp t_update : datetime) (req : request) (w : world) :
  auto_resets (snd (manual_control upper t_stamp t_update req w)) = auto_resets w.
Proof.
  destruct (manual_control_cases upper t_stamp t_update req w)
    as [H|[[e H]|(pos & _ & H)]];
    rewrite H; simpl; try reflexivity; apply auto_resets_print; reflexivity.
Qed.

Lemma perform_reset_budget (ev : event) (w : world) :
  (auto_resets (perform upper stdout_refuses ev w) + moving (perform upper stdout_refuses ev w)
   <= auto_resets w + moving w + if external_write ev then 1 else 0)%nat.
Proof.
  destruct ev as [t1 t2 req|t1 t2 req|t1 t2| |]; simpl perform; simpl external_write.
  - rewrite update_detection_auto_resets.
    pose proof (moving_le_1 (snd (update_detection upper stdout_refuses t1 t2 req w))). lia.
  - rewrite manual_control_auto_resets.
    pose proof (moving_le_1 (snd (manual_control upper t1 t2 req w))). lia.
  - destruct (stale_and_active_dec t1 (store w)) as [(lu & Hlu & Hgt & Hpos)|Hidle].
    + rewrite (tick_fires _ t2 _ _ Hlu Hgt Hpos).
      unfold auto_resets, moving. simpl.
      rewrite filter_snoc. simpl. rewrite length_app. simpl.
      apply String.eqb_neq in Hpos. rewrite Hpos. lia.
    + rewrite (tick_idle _ t2 _ Hidle). simpl. lia.
  - change (snd (get_position w)) with w. cbv iota. lia.
  - change (snd (get_status w)) with w. cbv iota. lia.
Qed.

Lemma run_reset_budget (evs : list event) (w : world) :
  (auto_resets (run upper stdout_refuses evs w) + moving (run upper stdout_refuses evs w)
   <= auto_resets w + moving w + external_writes evs)%nat.
Proof.
  revert w. induction evs as [|ev evs IH]; intros w.
  - unfold external_writes. simpl. lia.
  - rewrite run_cons.
    pose proof (IH (perform upper stdout_refuses ev w)) as Hrest.
    pose proof (perform_reset_budget ev w) as Hstep.
    unfold external_writes in *. simpl filter.
    destruct (external_write ev); simpl List.length; lia.
Qed.

(** X13: the watchdog resets at most once per external write: in
    every execution from the start of the process, with any requests
    and any clock, the number of AUTO-RESET lines printed is at most the
    number of POST requests to the two writing handlers. *)
Theorem resets_bounded_by_writes (t0 : datetime) (evs : list event) :
  (auto_resets (run upper stdout_refuses evs (boot t0)) <= external_writes evs)%nat.
Proof.
  pose proof (run_reset_budget evs (boot t0)) as H.
  change (auto_resets (boot t0)) with 0%nat in H.
  change (moving (boot t0)) with 0%nat in H. lia.
Qed.

End ResetCount.

(** ** A write that fails after it has been made, and a write that goes stale *)

Section WrittenThenWhat.

Variable upper : string -> string.
Variable stdout_refuses : log_line -> option string.

(** X14: an answer 500 does not mean that nothing was written.  With
    a valid position and a confidence that the log line cannot format
    (a string, null, a list, a dict, an int beyond the range of a
    double), POST /api/detection answers 500 with an error body, and
    the record has been replaced all the same: the next read returns
    the new position. *)
Theorem unformattable_confidence_is_stored (t_stamp t_update : datetime)
  (items : list (string * json)) (p : string) (conf : json) (w : world) :
  lookup "position" items = Some (JStr p) ->
  lookup "confidence" items = Some conf ->
  position_in (upper p) valid_positions = true ->
  formats_2f conf = false ->
  (exists msg,
     fst (update_detection upper stdout_refuses t_stamp t_update (Val (JObj items)) w)
     = Val (mk_response 500 (ErrorBody msg)))
  /\ store (snd (update_detection upper stdout_refuses t_stamp t_update (Val (JObj items)) w))
     = written_state (upper p) conf
         (item_or "object_detected" (JBool false) items) t_stamp t_update
  /\ fst (get_position (snd (update_detection upper stdout_refuses t_stamp t_update (Val (JObj items)) w)))
     = Val (mk_response 200
              (PositionBody (upper p) (isoformat t_stamp)
                 (item_or "object_detected" (JBool false) items))).
Proof.
  intros Hp Hc Hok Hbad.
  pose proof (update_detection_valid upper stdout_refuses t_stamp t_update items p w
                (lookup_nonempty _ _ _ Hp)
                (item_or_found _ (JStr "STOP") _ _ Hp) Hok) as Hrun.
  cbv zeta in Hrun.
  rewrite (item_or_found _ (JFloat 0%float) _ _ Hc) in Hrun.
  destruct Hrun as [(Hf & _)|[(Hf & _)|(_ & e & Hrun)]]; [congruence|congruence|].
  rewrite Hrun. simpl. split; [eexists; reflexivity|]. split; reflexivity.
Qed.

(** X15: any write that sets the motors moving goes stale.  After a
    write whose position is valid and is not STOP, with last_update
    reading T, passes of the watchdog of which one has a clock later
    than T + AUTO_RESET_SECONDS end with position STOP and
    object_detected false, while confidence and last_update are still
    those of the write. *)
Theorem moving_write_goes_stale (t_stamp T : datetime) (items : list (string * json))
  (p : string) (w : world) (passes : list (datetime * datetime)) :
  lookup "position" items = Some (JStr p) ->
  position_in (upper p) valid_positions = true ->
  upper p <> "STOP" ->
  (exists q, In q passes /\ T + AUTO_RESET_SECONDS < fst q) ->
  position (store (snd (auto_reset_worker passes
             (snd (update_detection upper stdout_refuses t_stamp T (Val (JObj items)) w))))) = "STOP"
  /\ object_detected (store (snd (auto_reset_worker passes
             (snd (update_detection upper stdout_refuses t_stamp T (Val (JObj items)) w))))) = JBool false
  /\ confidence (store (snd (auto_reset_worker passes
             (snd (update_detection upper stdout_refuses t_stamp T (Val (JObj items)) w)))))
     = item_or "confidence" (JFloat 0%float) items
  /\ last_update (store (snd (auto_reset_worker passes
             (snd (update_detection upper stdout_refuses t_stamp T (Val (JObj items)) w))))) = Some T.
Proof.
  intros Hp Hok Hmove (q & Hin & Hlate).
  assert (Hstore : store (snd (update_detection upper stdout_refuses t_stamp T (Val (JObj items)) w))
                   = written_state (upper p)
                       (item_or "confidence" (JFloat 0%float) items)
                       (item_or "object_detected" (JBool false) items) t_stamp T).
  { destruct (update_detection_valid upper stdout_refuses t_stamp T items p w
                (lookup_nonempty _ _ _ Hp) (item_or_found _ _ _ _ Hp) Hok)
      as [(_ & _ & Hrun)|[(_ & text & _ & Hrun)|(_ & e & Hrun)]]; rewrite Hrun; reflexivity. }
  set (w1 := snd (update_detection upper stdout_refuses t_stamp T (Val (JObj items)) w)) in *.
  destruct (worker_reaches_stop passes w1 T) as [Hstop Hobj].
  - rewrite Hstore. reflexivity.
  - rewrite Hstore. simpl. intros Heq. contradiction.
  - exists q. split; [exact Hin|lia].
  - destruct (worker_frame passes w1) as [Hlu Hconf].
    rewrite Hstop, Hobj, Hlu, Hconf, Hstore. repeat split; reflexivity.
Qed.

End WrittenThenWhat.

(** ** Concrete runs of the further properties *)

Lemma answer_400_changes_nothing_witness :
  snd (update_detection ascii_upper tolerant_stdout 7 8 (Val (JObj [("position", JStr "up")])) stale_world)
  = stale_world.
Proof.
  exact (proj1 (answer_400_changes_nothing ascii_upper tolerant_stdout 7 8
                  (Val (JObj [("position", JStr "up")])) stale_world
                  (ErrorBody invalid_position_message)) eq_refl).
Defined.

Lemma manual_control_all_or_nothing_witness :
  snd (manual_control ascii_upper 7 8 (Val (JArr [JStr "LEFT"])) stale_world) = stale_world.
Proof.
  refine (proj1 (proj2 (manual_control_all_or_nothing ascii_upper 7 8
                          (Val (JArr [JStr "LEFT"])) stale_world) _ eq_refl) _).
  simpl. discriminate.
Defined.

Lemma wrong_types_are_answered_500_witness :
  fst (update_detection ascii_upper tolerant_stdout 7 8 (Val (JObj [("position", JInt 5)])) stale_world)
  = Val (mk_response 500 (ErrorBody "'int' object has no attribute 'upper'"))
  /\ manual_control ascii_upper 7 8 (Val JNull) stale_world
     = (Val (mk_response 500 (ErrorBody "'NoneType' object has no attribute 'get'")),
        stale_world).
Proof.
  pose proof (wrong_types_are_answered_500 ascii_upper tolerant_stdout 7 8 stale_world)
    as (_ & Hpos & Hman).
  split.
  - refine (proj1 (Hpos [("position", JInt 5)] (JInt 5) eq_refl _)).
    intros p H. discriminate.
  - apply (Hman JNull). intros items H. discriminate.
Defined.

Lemma manual_without_position_stops_witness :
  store (snd (manual_control ascii_upper 7 8 (Val (JObj [])) stale_world))
  = {| position := "STOP"; timestamp := isoformat 7;
       confidence := JFloat 0.875%float; object_detected := JBool false;
       last_update := Some 8 |}.
Proof.
  rewrite (proj1 (manual_without_position_stops ascii_upper tolerant_stdout 7 8 [] stale_world
                    eq_refl eq_refl)).
  reflexivity.
Defined.

Lemma fresh_write_is_not_reset_witness :
  fst (get_position
         (snd (auto_reset_worker [(1500000, 1500000); (2000000, 2000000)]
                 (snd (update_detection ascii_upper tolerant_stdout 0 0 (Val (JObj left_body))
                         (boot (-1000000)))))))
  = Val (mk_response 200 (PositionBody "LEFT" (isoformat 0) (JBool true))).
Proof.
  refine (proj2 (fresh_write_is_not_reset ascii_upper tolerant_stdout 0 0 left_body "left"
                   (boot (-1000000)) [(1500000, 1500000); (2000000, 2000000)]
                   eq_refl eq_refl _)).
  repeat constructor; simpl; unfold AUTO_RESET_SECONDS; lia.
Defined.

Lemma stop_write_keeps_object_detected_witness :
  fst (get_position
         (run ascii_upper tolerant_stdout [Tick 9000000 9000001; ReadStatus; Tick 9500000 9500001]
            (snd (update_detection ascii_upper tolerant_stdout 7 8
                    (Val (JObj [("position", JStr "stop"); ("object_detected", JBool true)]))
                    (boot 0)))))
  = Val (mk_response 200 (PositionBody "STOP" (isoformat 7) (JBool true))).
Proof.
  exact (proj2 (stop_write_keeps_object_detected ascii_upper tolerant_stdout 7 8
                  [("position", JStr "stop"); ("object_detected", JBool true)] "stop"
                  (boot 0) [Tick 9000000 9000001; ReadStatus; Tick 9500000 9500001]
                  eq_refl eq_refl eq_refl)).
Defined.

Lemma last_write_overwrites_history_witness :
  store (run ascii_upper tolerant_stdout
           ([Manual 1 2 (Val (JObj [("position", JStr "right")])); Tick 5000000 5000001]
            ++ [Detection 7 8 (Val (JObj [("position", JStr "center")]))])
           (boot 0))
  = written_state "CENTER" (JFloat 0%float) (JBool false) 7 8.
Proof.
  exact (last_write_overwrites_history ascii_upper tolerant_stdout 7 8 [("position", JStr "center")]
           "center"
           [Manual 1 2 (Val (JObj [("position", JStr "right")])); Tick 5000000 5000001]
           (boot 0) eq_refl eq_refl).
Defined.

Lemma last_update_unset_only_before_first_write_witness :
  store (run ascii_upper tolerant_stdout
           [Tick 5000000 5000001; Detection 7 8 (Val (JObj [])); Manual 9 10 (Val JNull)]
           (boot 0))
  = store (boot 0).
Proof.
  exact (proj1 (last_update_unset_only_before_first_write ascii_upper tolerant_stdout
                  [Tick 5000000 5000001; Detection 7 8 (Val (JObj []));
                   Manual 9 10 (Val JNull)]
                  (boot 0)) eq_refl).
Defined.

Lemma unformattable_confidence_is_stored_witness :
  store (snd (update_detection ascii_upper tolerant_stdout 7 8
                (Val (JObj [("position", JStr "right"); ("confidence", JNull)]))
                stale_world))
  = written_state "RIGHT" JNull (JBool false) 7 8.
Proof.
  exact (proj1 (proj2 (unformattable_confidence_is_stored ascii_upper tolerant_stdout 7 8
                         [("position", JStr "right"); ("confidence", JNull)] "right"
                         JNull stale_world eq_refl eq_refl eq_refl eq_refl))).
Defined.

Lemma moving_write_goes_stale_witness :
  position (store (snd (auto_reset_worker [(1000000, 1000000); (2000001, 2000002)]
              (snd (update_detection ascii_upper tolerant_stdout 0 0
                      (Val (JObj [("position", JStr "center"); ("object_detected", JBool true)]))
                      (boot (-1000000)))))))
  = "STOP".
Proof.
  refine (proj1 (moving_write_goes_stale ascii_upper tolerant_stdout 0 0
                   [("position", JStr "center"); ("object_detected", JBool true)] "center"
                   (boot (-1000000)) [(1000000, 1000000); (2000001, 2000002)]
                   eq_refl eq_refl _ _)).
  - simpl. discriminate.
  - exists (2000001, 2000002). split; [simpl; auto|reflexivity].
Defined.
